(** * NetSuite REST helpers: a shallow embedding of [netsuite_all_functions.py]

    The module is a set of helper functions over the [requests] library:
    three paginated fetchers ([fetch_all_netsuite_records],
    [fetch_all_dataset_records], [run_suiteql_query]) and four single-record
    operations.  The embedding keeps

    - Python values as an inductive type [json] (what [response.json()]
      hands back), with the dynamic operations the code applies to them
      ([.get], [list.extend], [len], truth value) and the exceptions these
      raise on values of the wrong type;
    - the network as explicit state: a deterministic server (any state type,
      any transition function) and a log of the requests sent with the
      responses received;
    - the [while True] loops as functions with fuel: a run that has not left
      the loop after [fuel] iterations yields [None].

    [print] calls only produce diagnostics and are left out.  A transport
    failure inside [requests] (no response at all) is outside the model: every
    function is described from the response object on. *)

From Stdlib Require Import ZArith String Ascii List Bool Lia.
From Stdlib Require Import DecimalString DecimalZ Floats.
Import ListNotations.

Local Open Scope string_scope.
Local Open Scope Z_scope.

#[local] Set Warnings "-register-all".

(** ** Python values *)

(** The values [json.loads] produces: [None], [bool], [int], [float], [str],
    [list] and [dict].  A [dict] is kept as an association list in insertion
    order; a parsed object has distinct keys, and lookup takes the first
    binding.  A character of a [str] is an [ascii]; no operation below looks
    at a character except to compare it with another one. *)
Inductive json : Type :=
| JNull
| JBool (b : bool)
| JInt (z : Z)
| JFloat (f : float)
| JStr (s : string)
| JArr (l : list json)
| JObj (d : list (string * json)).

Inductive exn : Type :=
| JSONDecodeError
| AttributeError
| TypeError
| IndexError.

(** What a Python expression does: it has a value or it raises. *)
Inductive outcome (A : Type) : Type :=
| Returned (a : A)
| Raised (e : exn).
Arguments Returned {A} a.
Arguments Raised {A} e.

Definition bind {A B : Type} (m : outcome A) (k : A -> outcome B) : outcome B :=
  match m with
  | Returned a => k a
  | Raised e => Raised e
  end.

Notation "x <- m ;; k" := (bind m (fun x => k))
  (at level 61, m at next level, right associativity).

(** [str(n)] for an [int], as an f-string renders it. *)
Definition str_int (z : Z) : string := NilZero.string_of_int (Z.to_int z).

(** [str(x)] for a value of [os.getenv]: a missing variable prints as [None]. *)
Definition str_opt (o : option string) : string :=
  match o with
  | Some s => s
  | None => "None"
  end.

(** [bool(v)]: the truth value Python gives [v] in [if v] and [not v]. *)
Definition py_bool (v : json) : bool :=
  match v with
  | JNull => false
  | JBool b => b
  | JInt z => negb (z =? 0)
  | JFloat f => negb (PrimFloat.eqb f 0%float)
  | JStr s => negb (String.eqb s EmptyString)
  | JArr l => match l with [] => false | _ :: _ => true end
  | JObj d => match d with [] => false | _ :: _ => true end
  end.

Fixpoint assoc (key : string) (d : list (string * json)) : option json :=
  match d with
  | [] => None
  | (k, v) :: d' => if String.eqb key k then Some v else assoc key d'
  end.

(** [v.get(key, default)]: only a [dict] has the method. *)
Definition py_get (v : json) (key : string) (default : json) : outcome json :=
  match v with
  | JObj d => Returned (match assoc key d with Some x => x | None => default end)
  | _ => Raised AttributeError
  end.

(** The elements [for x in v] runs through: the elements of a list, the
    characters of a string, the keys of a dict. *)
Definition py_iter (v : json) : outcome (list json) :=
  match v with
  | JArr l => Returned l
  | JStr s => Returned (map (fun c => JStr (String c EmptyString)) (list_ascii_of_string s))
  | JObj d => Returned (map (fun kv => JStr (fst kv)) d)
  | _ => Raised TypeError
  end.

(** [l.extend(v)] *)
Definition list_extend (l : list json) (v : json) : outcome (list json) :=
  xs <- py_iter v ;; Returned (l ++ xs)%list.

(** [len(v)] *)
Definition py_len (v : json) : outcome Z :=
  match v with
  | JArr l => Returned (Z.of_nat (List.length l))
  | JStr s => Returned (Z.of_nat (String.length s))
  | JObj d => Returned (Z.of_nat (List.length d))
  | _ => Raised TypeError
  end.

(** [s.rstrip(c)] for a one-character [c]. *)
Fixpoint str_rstrip (c : ascii) (s : string) : string :=
  match s with
  | EmptyString => EmptyString
  | String a s' =>
      match str_rstrip c s' with
      | EmptyString => if Ascii.eqb a c then EmptyString else String a EmptyString
      | t => String a t
      end
  end.

(** [s.split(c)] for a one-character [c]: never the empty list. *)
Fixpoint str_split (sep : ascii) (s : string) : list string :=
  match s with
  | EmptyString => [EmptyString]
  | String a s' =>
      if Ascii.eqb a sep then EmptyString :: str_split sep s'
      else match str_split sep s' with
           | [] => [String a EmptyString]
           | w :: ws => String a w :: ws
           end
  end.

(** [l[-1]] *)
Definition py_last {A : Type} (l : list A) : outcome A :=
  match rev l with
  | x :: _ => Returned x
  | [] => Raised IndexError
  end.

(** ** Requests and responses *)

(** The [OAuth1] object of [requests_oauthlib]: the client only builds it and
    hands it to [requests]. *)
Record OAuth1 : Type := {
  client_key : option string;
  client_secret : option string;
  resource_owner_key : option string;
  resource_owner_secret : option string;
  signature_method : string;
  signature_type : string;
  realm : option string
}.

Inductive Method : Type := GET | POST | PATCH | DELETE.

Record Request : Type := {
  method : Method;
  url : string;
  json_payload : option json;
  req_headers : list (string * string);
  auth : OAuth1
}.

(** The part of [requests.Response] the client reads.  [body] is the parsed
    body, [None] when the body is not JSON; [headers] is [response.headers.get]. *)
Record Response : Type := {
  status_code : Z;
  text : string;
  body : option json;
  headers : string -> option string
}.

(** [response.json()] *)
Definition response_json (response : Response) : outcome json :=
  match body response with
  | Some v => Returned v
  | None => Raised JSONDecodeError
  end.

(** What one pass through a [while True] body decides. *)
Inductive control : Type :=
| Break (all_items : list json)
| Continue (all_items : list json) (offset : Z).

(** ** The network *)

(** The server is any state with a deterministic answer to a request.  The
    client's side of the connection keeps the server's state and the log of
    the exchanges so far, oldest first. *)
Record network (Server : Type) : Type := {
  server : Server;
  log : list (Request * Response)
}.
Arguments server {Server} n.
Arguments log {Server} n.

(** A connection on which nothing has been sent. *)
Definition connect {Server : Type} (s : Server) : network Server :=
  {| server := s; log := [] |}.

Section Client.

(** The process environment read by [os.getenv]. *)
Variable getenv : string -> option string.

Context {Server : Type}.
Variable serve : Request -> Server -> Response * Server.

Definition send (req : Request) (net : network Server) : Response * network Server :=
  let (response, s) := serve req (server net) in
  (response, {| server := s; log := (log net ++ [(req, response)])%list |}).

Definition get_request (url : string) (auth : OAuth1) : Request :=
  {| method := GET; url := url; json_payload := None; req_headers := []; auth := auth |}.

Definition post_request (url : string) (payload : json)
    (hdrs : list (string * string)) (auth : OAuth1) : Request :=
  {| method := POST; url := url; json_payload := Some payload;
     req_headers := hdrs; auth := auth |}.

Definition patch_request (url : string) (payload : json) (auth : OAuth1) : Request :=
  {| method := PATCH; url := url; json_payload := Some payload;
     req_headers := []; auth := auth |}.

Definition delete_request (url : string) (auth : OAuth1) : Request :=
  {| method := DELETE; url := url; json_payload := None; req_headers := []; auth := auth |}.

(** ** Module-level configuration *)

Definition NS_REALM_ID := getenv "NS_PROD_REALM_ID".
Definition NS_COMPANY_ID := getenv "NS_PROD_COMPANY_ID".
Definition NS_CLIENT_KEY := getenv "NS_PROD_CLIENT_KEY".
Definition NS_CLIENT_SECRET := getenv "NS_PROD_CLIENT_SECRET".
Definition NS_TOKEN_ID := getenv "NS_PROD_TOKEN_ID".
Definition NS_TOKEN_SECRET := getenv "NS_PROD_TOKEN_SECRET".

Definition netsuite_auth : OAuth1 :=
  {| client_key := NS_CLIENT_KEY;
     client_secret := NS_CLIENT_SECRET;
     resource_owner_key := NS_TOKEN_ID;
     resource_owner_secret := NS_TOKEN_SECRET;
     signature_method := "HMAC-SHA256";
     signature_type := "AUTH_HEADER";
     realm := NS_REALM_ID |}.

Definition host : string :=
  "https://" ++ str_opt NS_COMPANY_ID ++ ".suitetalk.api.netsuite.com".

Definition record_base_url : string := host ++ "/services/rest/record/v1".

(** ** [fetch_all_netsuite_records] *)

Definition record_list_url (endpoint : string) : string :=
  record_base_url ++ "/" ++ endpoint.

Definition record_list_request (auth : OAuth1) (endpoint : string) (offset : Z) : Request :=
  get_request (record_list_url endpoint ++ "?offset=" ++ str_int offset) auth.

(** The loop body after the request (lines 57-69). *)
Definition record_list_page (response : Response) (all_items : list json)
    (offset : Z) : outcome control :=
  if negb (status_code response =? 200) then Returned (Break all_items)
  else
    data <- response_json response ;;
    items <- py_get data "items" (JArr []) ;;
    all_items <- list_extend all_items items ;;
    hasMore <- py_get data "hasMore" (JBool false) ;;
    if negb (py_bool hasMore) then Returned (Break all_items)
    else
      n <- py_len items ;;
      Returned (Continue all_items (offset + n)).

Fixpoint fetch_all_netsuite_records_loop (fuel : nat) (auth : OAuth1)
    (endpoint : string) (all_items : list json) (offset : Z) (net : network Server)
    : option (outcome (list json)) * network Server :=
  match fuel with
  | O => (None, net)
  | S fuel' =>
      let (response, net) := send (record_list_request auth endpoint offset) net in
      match record_list_page response all_items offset with
      | Raised e => (Some (Raised e), net)
      | Returned (Break all_items) => (Some (Returned all_items), net)
      | Returned (Continue all_items offset) =>
          fetch_all_netsuite_records_loop fuel' auth endpoint all_items offset net
      end
  end.

Definition fetch_all_netsuite_records (fuel : nat) (auth : OAuth1)
    (endpoint : string) (net : network Server) : option (outcome (list json)) * network Server :=
  fetch_all_netsuite_records_loop fuel auth endpoint [] 0 net.

(** ** [fetch_all_dataset_records] *)

Definition dataset_request (auth : OAuth1) (dataset_id : string) (limit offset : Z)
    : Request :=
  get_request
    (host ++ "/services/rest/query/v1/dataset/" ++ dataset_id ++ "/result"
       ++ "?limit=" ++ str_int limit ++ "&offset=" ++ str_int offset) auth.

(** The loop body after the request (lines 95-107). *)
Definition dataset_page (response : Response) (limit : Z) (all_items : list json)
    (offset : Z) : outcome control :=
  if negb (status_code response =? 200) then Returned (Break all_items)
  else
    data <- response_json response ;;
    items <- py_get data "items" (JArr []) ;;
    all_items <- list_extend all_items items ;;
    hasMore <- py_get data "hasMore" JNull ;;
    if negb (py_bool hasMore) then Returned (Break all_items)
    else Returned (Continue all_items (offset + limit)).

Fixpoint fetch_all_dataset_records_loop (fuel : nat) (auth : OAuth1)
    (dataset_id : string) (limit : Z) (all_items : list json) (offset : Z)
    (net : network Server) : option (outcome (list json)) * network Server :=
  match fuel with
  | O => (None, net)
  | S fuel' =>
      let (response, net) := send (dataset_request auth dataset_id limit offset) net in
      match dataset_page response limit all_items offset with
      | Raised e => (Some (Raised e), net)
      | Returned (Break all_items) => (Some (Returned all_items), net)
      | Returned (Continue all_items offset) =>
          fetch_all_dataset_records_loop fuel' auth dataset_id limit all_items offset net
      end
  end.

(** The caller that leaves [limit] out gets 1000 ([default_limit]). *)
Definition default_limit : Z := 1000.

Definition fetch_all_dataset_records (fuel : nat) (auth : OAuth1)
    (dataset_id : string) (limit : Z) (net : network Server)
    : option (outcome (list json)) * network Server :=
  fetch_all_dataset_records_loop fuel auth dataset_id limit [] 0 net.

(** ** [fetch_record_by_id] *)

Definition fetch_record_by_id (auth : OAuth1) (endpoint record_id : string)
    (net : network Server) : outcome json * network Server :=
  let url := record_base_url ++ "/" ++ endpoint ++ "/" ++ record_id in
  let (response, net) := send (get_request url auth) net in
  if status_code response =? 200 then (response_json response, net)
  else (Returned JNull, net).

(** ** [run_suiteql_query] *)

Definition suiteql_headers : list (string * string) :=
  [("Content-Type", "application/json"); ("Prefer", "transient")].

Definition suiteql_limit : Z := 1000.

Definition suiteql_request (auth : OAuth1) (query_string : string) (offset : Z)
    : Request :=
  post_request
    (host ++ "/services/rest/query/v1/suiteql"
       ++ "?limit=" ++ str_int suiteql_limit ++ "&offset=" ++ str_int offset)
    (JObj [("q", JStr query_string)]) suiteql_headers auth.

(** The loop body after the request (lines 163-174). *)
Definition suiteql_page (response : Response) (all_items : list json)
    (offset : Z) : outcome control :=
  let limit := suiteql_limit in
  if status_code response =? 200 then
    data <- response_json response ;;
    items <- py_get data "items" (JArr []) ;;
    all_items <- list_extend all_items items ;;
    n <- py_len items ;;
    if n <? limit then Returned (Break all_items)
    else Returned (Continue all_items (offset + limit))
  else Returned (Break all_items).

Fixpoint run_suiteql_query_loop (fuel : nat) (auth : OAuth1)
    (query_string : string) (all_items : list json) (offset : Z) (net : network Server)
    : option (outcome (list json)) * network Server :=
  match fuel with
  | O => (None, net)
  | S fuel' =>
      let (response, net) := send (suiteql_request auth query_string offset) net in
      match suiteql_page response all_items offset with
      | Raised e => (Some (Raised e), net)
      | Returned (Break all_items) => (Some (Returned all_items), net)
      | Returned (Continue all_items offset) =>
          run_suiteql_query_loop fuel' auth query_string all_items offset net
      end
  end.

Definition run_suiteql_query (fuel : nat) (auth : OAuth1) (query_string : string)
    (net : network Server) : option (outcome (list json)) * network Server :=
  run_suiteql_query_loop fuel auth query_string [] 0 net.

(** ** [create_netsuite_record] *)

(** Lines 194-213: what the function returns for the response it got. *)
Definition create_result (response : Response) : outcome json :=
  if (status_code response =? 200) || (status_code response =? 201) then
    result <- response_json response ;;
    record_id <- py_get result "id" JNull ;;
    Returned result
  else if status_code response =? 204 then
    match headers response "Location" with
    | Some location =>
        if py_bool (JStr location) then
          record_id <- py_last (str_split "/" (str_rstrip "/" location)) ;;
          Returned (JObj [("id", JStr record_id)])
        else Returned (JObj [])
    | None => Returned (JObj [])
    end
  else Returned JNull.

Definition create_netsuite_record (auth : OAuth1) (endpoint : string)
    (payload : json) (net : network Server) : outcome json * network Server :=
  let url := record_base_url ++ "/" ++ endpoint in
  let (response, net) := send (post_request url payload [] auth) net in
  (create_result response, net).

(** ** [update_netsuite_record] *)

(** Lines 234-242. *)
Definition update_result (response : Response) : outcome json :=
  if (status_code response =? 200) || (status_code response =? 201) then
    response_json response
  else if status_code response =? 204 then Returned (JObj [])
  else Returned JNull.

Definition update_netsuite_record (auth : OAuth1) (endpoint record_id : string)
    (payload : json) (net : network Server) : outcome json * network Server :=
  let url := record_base_url ++ "/" ++ endpoint ++ "/" ++ record_id in
  let (response, net) := send (patch_request url payload auth) net in
  (update_result response, net).

(** ** [delete_netsuite_record] *)

(** Lines 261-267. *)
Definition delete_result (response : Response) : outcome bool :=
  if status_code response =? 204 then Returned true
  else Returned false.

Definition delete_netsuite_record (auth : OAuth1) (endpoint record_id : string)
    (net : network Server) : outcome bool * network Server :=
  let url := record_base_url ++ "/" ++ endpoint ++ "/" ++ record_id in
  let (response, net) := send (delete_request url auth) net in
  (delete_result response, net).

End Client.

(** ** The common shape of the three loops *)

(** What the three loop bodies do with a page whose status is 200: parse the
    body, take [items] (an empty list when the key is missing) and run through
    it for [extend].  The result is the parsed body with the elements that
    [extend] appends. *)
Definition read_page (response : Response) : outcome (json * list json) :=
  data <- response_json response ;;
  items <- py_get data "items" (JArr []) ;;
  xs <- py_iter items ;;
  Returned (data, xs).

(** The items a page hands over; nothing when its body cannot be read. *)
Definition page_items (response : Response) : list json :=
  match read_page response with
  | Returned (_, xs) => xs
  | Raised _ => []
  end.

(** [bool(data.get("hasMore", default))] *)
Definition has_more (default : json) (data : json) : bool :=
  match py_get data "hasMore" default with
  | Returned v => py_bool v
  | Raised _ => false
  end.

Section Paginate.

Context {Server : Type}.
Variable serve : Request -> Server -> Response * Server.

(** The three loops differ in the request for an offset, in the test that
    keeps the loop going after a page, and in the next offset. *)
Variable request_at : Z -> Request.
Variable more : json -> list json -> bool.
Variable advance : Z -> list json -> Z.

Definition page (response : Response) (all_items : list json) (offset : Z)
    : outcome control :=
  if status_code response =? 200 then
    match read_page response with
    | Raised e => Raised e
    | Returned (data, xs) =>
        if more data xs
        then Returned (Continue (all_items ++ xs)%list (advance offset xs))
        else Returned (Break (all_items ++ xs)%list)
    end
  else Returned (Break all_items).

Fixpoint paginate (fuel : nat) (all_items : list json) (offset : Z)
    (net : network Server) : option (outcome (list json)) * network Server :=
  match fuel with
  | O => (None, net)
  | S fuel' =>
      let (response, net) := send serve (request_at offset) net in
      match page response all_items offset with
      | Raised e => (Some (Raised e), net)
      | Returned (Break all_items) => (Some (Returned all_items), net)
      | Returned (Continue all_items offset) => paginate fuel' all_items offset net
      end
  end.

(** A readable page with status 200 that passes the continuation test. *)
Definition accepts (r : Response) : bool :=
  (status_code r =? 200) &&
  match read_page r with
  | Returned (data, xs) => more data xs
  | Raised _ => false
  end.

(** A readable page with status 200 that fails the continuation test. *)
Definition closes (r : Response) : bool :=
  (status_code r =? 200) &&
  match read_page r with
  | Returned (data, xs) => negb (more data xs)
  | Raised _ => false
  end.

(** The offset the loop has reached after the pages [pages], from [offset]. *)
Definition offset_after (offset : Z) (pages : list Response) : Z :=
  fold_left (fun o r => advance o (page_items r)) pages offset.

(** [run fuel all_items offset exchanges result]: entered with [all_items] and
    [offset], the loop makes the exchanges [exchanges] within [fuel] iterations
    and ends with [result] ([None]: still in the loop). *)
Inductive run : nat -> list json -> Z -> list (Request * Response) ->
                option (outcome (list json)) -> Prop :=
| run_paused all_items offset :
    run O all_items offset [] None
| run_failed fuel all_items offset r :
    status_code r <> 200 ->
    run (S fuel) all_items offset [(request_at offset, r)] (Some (Returned all_items))
| run_raised fuel all_items offset r e :
    status_code r = 200 ->
    read_page r = Raised e ->
    run (S fuel) all_items offset [(request_at offset, r)] (Some (Raised e))
| run_last fuel all_items offset r data xs :
    status_code r = 200 ->
    read_page r = Returned (data, xs) ->
    more data xs = false ->
    run (S fuel) all_items offset [(request_at offset, r)]
        (Some (Returned (all_items ++ xs)%list))
| run_next fuel all_items offset r data xs rest result :
    status_code r = 200 ->
    read_page r = Returned (data, xs) ->
    more data xs = true ->
    run fuel (all_items ++ xs)%list (advance offset xs) rest result ->
    run (S fuel) all_items offset ((request_at offset, r) :: rest) result.

End Paginate.

(** ** The three fetchers as instances *)

Inductive fetcher : Type :=
| RecordList (endpoint : string)
| Dataset (dataset_id : string) (limit : Z)
| SuiteQL (query_string : string).

Section Fetchers.

Variable getenv : string -> option string.
Context {Server : Type}.
Variable serve : Request -> Server -> Response * Server.

Definition fetch (f : fetcher) (fuel : nat) (auth : OAuth1) (net : network Server)
    : option (outcome (list json)) * network Server :=
  match f with
  | RecordList endpoint => fetch_all_netsuite_records getenv serve fuel auth endpoint net
  | Dataset dataset_id limit =>
      fetch_all_dataset_records getenv serve fuel auth dataset_id limit net
  | SuiteQL query_string => run_suiteql_query getenv serve fuel auth query_string net
  end.

Definition request_of (f : fetcher) (auth : OAuth1) (offset : Z) : Request :=
  match f with
  | RecordList endpoint => record_list_request getenv auth endpoint offset
  | Dataset dataset_id limit => dataset_request getenv auth dataset_id limit offset
  | SuiteQL query_string => suiteql_request getenv auth query_string offset
  end.

End Fetchers.

Definition more_of (f : fetcher) (data : json) (xs : list json) : bool :=
  match f with
  | RecordList _ => has_more (JBool false) data
  | Dataset _ _ => has_more JNull data
  | SuiteQL _ => negb (Z.of_nat (List.length xs) <? suiteql_limit)
  end.

Definition advance_of (f : fetcher) (offset : Z) (xs : list json) : Z :=
  match f with
  | RecordList _ => offset + Z.of_nat (List.length xs)
  | Dataset _ limit => offset + limit
  | SuiteQL _ => offset + suiteql_limit
  end.

(** A page after which the fetcher asks for another one. *)
Definition continues (f : fetcher) (r : Response) : bool := accepts (more_of f) r.

(** A page after which the fetcher leaves the loop with the page's items. *)
Definition stops (f : fetcher) (r : Response) : bool := closes (more_of f) r.

(** The fetchers whose loop test reads [hasMore]. *)
Definition reads_flag (f : fetcher) : bool :=
  match f with
  | RecordList _ | Dataset _ _ => true
  | SuiteQL _ => false
  end.

(** The response [r] with the field [key] of its body set to [v]. *)
Definition with_field (key : string) (v : json) (r : Response) : Response :=
  {| status_code := status_code r;
     text := text r;
     body := match body r with
             | Some (JObj d) => Some (JObj ((key, v) :: d))
             | other => other
             end;
     headers := headers r |}.

(** ** Servers that play a script *)

(** The server state is the list of responses still to give; each request
    takes the next one, and [fallback] once the list is used up. *)
Definition play (fallback : Response) (req : Request) (script : list Response)
    : Response * list Response :=
  match script with
  | r :: rest => (r, rest)
  | [] => (fallback, [])
  end.

(** A server that gives the same answer to every request. *)
Definition always (r : Response) (req : Request) (s : unit) : Response * unit :=
  (r, tt).

(** ** The specification's wording, for comparison *)

(** The last [/]-delimited segment of a header value. *)
Definition last_segment (s : string) : string := last (str_split "/" s) EmptyString.

(** The result of a create on a 204 response as the specification words it:
    the identifier is the last segment of the [Location] value when the header
    is there, and the result is an empty mapping when it is not. *)
Definition create_204_as_specified (location : option string) (result : outcome json)
    : Prop :=
  match location with
  | Some value => result = Returned (JObj [("id", JStr (last_segment value))])
  | None => result = Returned (JObj [])
  end.

(** The result of an update as the specification words it: a value comes back
    for every response, chosen by the status alone. *)
Definition update_as_specified (response : Response) (result : outcome json) : Prop :=
  exists v, result = Returned v /\
    (status_code response = 200 \/ status_code response = 201 ->
       body response = Some v) /\
    (status_code response = 204 -> v = JObj []) /\
    (status_code response <> 200 -> status_code response <> 201 ->
     status_code response <> 204 -> v = JNull).

(** [s] ends with the character [c]. *)
Fixpoint ends_with (c : ascii) (s : string) : bool :=
  match s with
  | EmptyString => false
  | String a EmptyString => Ascii.eqb a c
  | String _ s' => ends_with c s'
  end.

(** ** Sample data *)

Definition sample_env (name : string) : option string :=
  if String.eqb name "NS_PROD_COMPANY_ID" then Some "123456" else None.

Definition sample_auth : OAuth1 := netsuite_auth sample_env.

Definition no_headers (name : string) : option string := None.

Definition sample_record (n : Z) : json := JObj [("id", JStr (str_int n))].

Definition items_page (items : list json) (fields : list (string * json)) : Response :=
  {| status_code := 200;
     text := EmptyString;
     body := Some (JObj (("items", JArr items) :: fields));
     headers := no_headers |}.

(** A 204 response with the given [Location] header. *)
Definition created_page (location : option string) : Response :=
  {| status_code := 204;
     text := EmptyString;
     body := None;
     headers := fun name => if String.eqb name "Location" then location else None |}.

(** A response with the given status whose body is not JSON. *)
Definition html_page (code : Z) : Response :=
  {| status_code := code;
     text := "<html><body>Bad Gateway</body></html>";
     body := None;
     headers := no_headers |}.

Definition sample_payload : json :=
  JObj [("companyName", JStr "Acme"); ("subsidiary", JObj [("id", JStr "1")])].

Definition flag_true : list (string * json) := [("hasMore", JBool true)].
Definition flag_false : list (string * json) := [("hasMore", JBool false)].

(** A SuiteQL page with as many rows as the limit. *)
Definition full_page : Response := items_page (repeat (sample_record 0) 1000) [].

(** The server used in the examples: it plays a script, then answers 500. *)
Definition sample_server : Request -> list Response -> Response * list Response :=
  play {| status_code := 500; text := "Internal Server Error"; body := None;
          headers := no_headers |}.

(** Three pages of 3, 1 and 2 customers. *)
Definition customer_pages : list Response :=
  [items_page [sample_record 1; sample_record 2; sample_record 3] flag_true;
   items_page [sample_record 4] flag_true;
   items_page [sample_record 5; sample_record 6] flag_false].

(** Dataset pages for a limit of 2; the second one is short. *)
Definition dataset_pages : list Response :=
  [items_page [sample_record 1; sample_record 2] flag_true;
   items_page [sample_record 3] flag_true;
   items_page [] flag_false].

(** A full query page followed by a page of one row. *)
Definition query_pages : list Response :=
  [full_page; items_page [sample_record 1] []].

(** Pages of 1000, 1000 and 250 rows, the last one with [hasMore] false. *)
Definition long_pages : list Response :=
  [items_page (repeat (sample_record 0) 1000) flag_true;
   items_page (repeat (sample_record 1) 1000) flag_true;
   items_page (repeat (sample_record 2) 250) flag_false].

(** Two pages that share a record. *)
Definition overlapping_pages : list Response :=
  [items_page [sample_record 1; sample_record 2] flag_true;
   items_page [sample_record 2; sample_record 3] flag_false].

(** A script whose second page has no [hasMore] field. *)
Definition unflagged_pages : list Response :=
  [items_page [sample_record 1; sample_record 2] flag_true;
   items_page [sample_record 3; sample_record 4] [];
   items_page [sample_record 5] flag_false].

Definition sample_query : string := "SELECT id FROM customer".

Definition sample_location : string :=
  "https://123456.suitetalk.api.netsuite.com/services/rest/record/v1/customer/4821".

(** A 200 response to an update, with the record as its body. *)
Definition updated_page : Response :=
  {| status_code := 200;
     text := EmptyString;
     body := Some (JObj [("id", JStr "4821"); ("companyName", JStr "Acme")]);
     headers := no_headers |}.

Definition error_page (code : Z) : Response :=
  {| status_code := code;
     text := "Internal Server Error";
     body := None;
     headers := no_headers |}.

(** ** Notions for the further properties *)

(** [c in s] *)
Fixpoint contains (c : ascii) (s : string) : bool :=
  match s with
  | EmptyString => false
  | String a s' => Ascii.eqb a c || contains c s'
  end.

(** [c * n] *)
Fixpoint str_repeat (c : ascii) (n : nat) : string :=
  match n with
  | O => EmptyString
  | S n' => String c (str_repeat c n')
  end.

(** The offset a request asks for, read back from its URL: the decimal number
    behind the last [=]. *)
Definition offset_of (req : Request) : option Z :=
  option_map Z.of_int
    (NilZero.int_of_string (last (str_split "=" (url req)) EmptyString)).

(** A server over a table: it answers the request for offset [o] with the
    [page_size] rows of [rows] from position [o] on, and says in [hasMore]
    whether rows are left behind them.  A request without a readable offset,
    or with a negative one, gets a 400. *)
Definition table_server (page_size : nat) (rows : list json) (req : Request)
    (st : unit) : Response * unit :=
  match offset_of req with
  | Some o =>
      if o <? 0 then (error_page 400, tt)
      else
        let k := Z.to_nat o in
        (items_page (firstn page_size (skipn k rows))
           [("hasMore", JBool (k + page_size <? List.length rows)%nat)], tt)
  | None => (error_page 400, tt)
  end.

(** The page sizes of a table server with which a fetcher keeps in step:
    any positive size for the record list (its offset follows the items
    received), the caller's limit for the dataset, 1000 for the query. *)
Definition page_size_fits (f : fetcher) (page_size : nat) : Prop :=
  match f with
  | RecordList _ => (0 < page_size)%nat
  | Dataset _ limit => (0 < page_size)%nat /\ limit = Z.of_nat page_size
  | SuiteQL _ => page_size = 1000%nat
  end.

(** A server that keeps records: a POST stores the payload under a fresh
    identifier and answers 204 with the record's URL in [Location]; a GET
    answers 200 with the record stored under the URL; a PATCH puts its fields
    in front of the stored ones and answers 204; a DELETE removes the record
    and answers 204.  A record that is not there gets a 404. *)
Record store : Type := {
  next_id : Z;
  records : list (string * json)
}.

Definition remove_key (key : string) (d : list (string * json)) : list (string * json) :=
  filter (fun kv => negb (String.eqb key (fst kv))) d.

Definition merge_fields (old new : json) : json :=
  match old, new with
  | JObj o, JObj n => JObj (n ++ o)%list
  | _, _ => new
  end.

Definition found_page (record : json) : Response :=
  {| status_code := 200; text := EmptyString; body := Some record;
     headers := no_headers |}.

Definition record_server (req : Request) (st : store) : Response * store :=
  match method req with
  | POST =>
      match json_payload req with
      | Some payload =>
          let location := (url req ++ "/" ++ str_int (next_id st))%string in
          (created_page (Some location),
           {| next_id := next_id st + 1;
              records := (location, payload) :: records st |})
      | None => (error_page 400, st)
      end
  | GET =>
      match assoc (url req) (records st) with
      | Some record => (found_page record, st)
      | None => (error_page 404, st)
      end
  | PATCH =>
      match assoc (url req) (records st), json_payload req with
      | Some record, Some payload =>
          (created_page None,
           {| next_id := next_id st;
              records := (url req, merge_fields record payload) :: records st |})
      | _, _ => (error_page 404, st)
      end
  | DELETE =>
      match assoc (url req) (records st) with
      | Some _ =>
          (created_page None,
           {| next_id := next_id st;
              records := remove_key (url req) (records st) |})
      | None => (error_page 404, st)
      end
  end.

(** Two passes through a loop body that end the same way with the same
    items; the next offsets may differ. *)
Definition same_step (a b : outcome control) : Prop :=
  match a, b with
  | Returned (Break x), Returned (Break y) => x = y
  | Returned (Continue x _), Returned (Continue y _) => x = y
  | Raised e, Raised e' => e = e'
  | _, _ => False
  end.

(** The method, body and headers every request of a fetcher has. *)
Definition method_of (f : fetcher) : Method :=
  match f with
  | SuiteQL _ => POST
  | _ => GET
  end.

Definition payload_of (f : fetcher) : option json :=
  match f with
  | SuiteQL query_string => Some (JObj [("q", JStr query_string)])
  | _ => None
  end.

Definition headers_of (f : fetcher) : list (string * string) :=
  match f with
  | SuiteQL _ => suiteql_headers
  | _ => []
  end.

(** A table of five rows. *)
Definition sample_rows : list json := map sample_record [1; 2; 3; 4; 5].

(** A 200 response whose body is an object without [items]. *)
Definition bare_page : Response :=
  {| status_code := 200; text := EmptyString;
     body := Some (JObj [("count", JInt 0)]); headers := no_headers |}.

(** * Properties *)

(** ** Python values *)

Lemma list_ascii_length (s : string) :
  List.length (list_ascii_of_string s) = String.length s.
Proof. induction s as [|a s IH]; simpl; congruence. Qed.

(** [len] of a value is the number of elements [extend] takes from it. *)
Lemma py_len_iter (v : json) (xs : list json) :
  py_iter v = Returned xs -> py_len v = Returned (Z.of_nat (List.length xs)).
Proof.
  destruct v; simpl; intros H; inversion H; subst; clear H.
  - now rewrite length_map, list_ascii_length.
  - reflexivity.
  - now rewrite length_map.
Qed.

Lemma str_split_nonempty (sep : ascii) (s : string) : str_split sep s <> [].
Proof.
  induction s as [|a s IH]; simpl.
  - discriminate.
  - destruct (Ascii.eqb a sep); [discriminate|].
    destruct (str_split sep s); [contradiction|discriminate].
Qed.

(** Indexing the result of [split] with [-1] never raises. *)
Lemma py_last_split (sep : ascii) (s : string) :
  py_last (str_split sep s) = Returned (last (str_split sep s) EmptyString).
Proof.
  unfold py_last.
  destruct (str_split sep s) as [|w ws] eqn:E using rev_ind.
  - now apply str_split_nonempty in E.
  - now rewrite rev_app_distr, last_last.
Qed.

(** ** The loop bodies are instances of [page] *)

Lemma read_page_data (r : Response) (data : json) (xs : list json) :
  read_page r = Returned (data, xs) ->
  exists d, data = JObj d /\ body r = Some (JObj d) /\
            py_iter (match assoc "items" d with Some v => v | None => JArr [] end)
            = Returned xs.
Proof.
  unfold read_page, response_json.
  destruct (body r) as [[]|]; simpl; try discriminate.
  destruct (py_iter _) eqn:E; simpl; [|discriminate].
  intros H; inversion H; subst. eauto.
Qed.

Lemma record_list_page_eq (endpoint : string) (r : Response)
    (all_items : list json) (offset : Z) :
  record_list_page r all_items offset
  = page (more_of (RecordList endpoint)) (advance_of (RecordList endpoint))
         r all_items offset.
Proof.
  unfold record_list_page, page, more_of, advance_of, has_more, read_page,
    response_json, list_extend.
  destruct (status_code r =? 200); simpl; [|reflexivity].
  destruct (body r) as [[]|]; simpl; try reflexivity.
  destruct (py_iter _) as [xs|e] eqn:E; simpl; [|reflexivity].
  destruct (py_bool _); simpl; [|reflexivity].
  now rewrite (py_len_iter _ _ E).
Qed.

Lemma dataset_page_eq (dataset_id : string) (limit : Z) (r : Response)
    (all_items : list json) (offset : Z) :
  dataset_page r limit all_items offset
  = page (more_of (Dataset dataset_id limit)) (advance_of (Dataset dataset_id limit))
         r all_items offset.
Proof.
  unfold dataset_page, page, more_of, advance_of, has_more, read_page,
    response_json, list_extend.
  destruct (status_code r =? 200); simpl; [|reflexivity].
  destruct (body r) as [[]|]; simpl; try reflexivity.
  destruct (py_iter _) as [xs|e] eqn:E; simpl; [|reflexivity].
  now destruct (py_bool _).
Qed.

Lemma suiteql_page_eq (query_string : string) (r : Response)
    (all_items : list json) (offset : Z) :
  suiteql_page r all_items offset
  = page (more_of (SuiteQL query_string)) (advance_of (SuiteQL query_string))
         r all_items offset.
Proof.
  unfold suiteql_page, page, more_of, advance_of, read_page, response_json,
    list_extend.
  destruct (status_code r =? 200); simpl; [|reflexivity].
  destruct (body r) as [[]|]; simpl; try reflexivity.
  destruct (py_iter _) as [xs|e] eqn:E; simpl; [|reflexivity].
  rewrite (py_len_iter _ _ E). simpl.
  now destruct (Z.of_nat (List.length xs) <? suiteql_limit).
Qed.

(** ** The loop and its exchanges *)

Section PaginateFacts.

Context {Server : Type}.
Variable serve : Request -> Server -> Response * Server.
Variable request_at : Z -> Request.
Variable more : json -> list json -> bool.
Variable advance : Z -> list json -> Z.

Local Abbreviation paginate := (paginate serve request_at more advance).
Local Abbreviation run := (run request_at more advance).
Local Abbreviation offset_after := (offset_after advance).

(** Every run of the loop is described by [run]: the log grows by the
    exchanges of the run. *)
Lemma paginate_run (fuel : nat) :
  forall all_items offset net,
  exists exchanges,
    log (snd (paginate fuel all_items offset net)) = (log net ++ exchanges)%list /\
    run fuel all_items offset exchanges (fst (paginate fuel all_items offset net)).
Proof.
  induction fuel as [|fuel IH]; intros acc off net; simpl.
  - exists []. split; [now rewrite app_nil_r|constructor].
  - unfold send. destruct (serve (request_at off) (server net)) as [r s].
    unfold page. destruct (Z.eqb_spec (status_code r) 200) as [Hs|Hs].
    + destruct (read_page r) as [[data xs]|e] eqn:R.
      * destruct (more data xs) eqn:M.
        -- destruct (IH (acc ++ xs)%list (advance off xs)
                        {| server := s; log := (log net ++ [(request_at off, r)])%list |})
             as [es [Hl Hr]].
           exists ((request_at off, r) :: es). split.
           ++ rewrite Hl. simpl. now rewrite <- app_assoc.
           ++ eapply run_next; eauto.
        -- exists [(request_at off, r)]. split; [reflexivity|].
           eapply run_last; eauto.
      * exists [(request_at off, r)]. split; [reflexivity|].
        now apply run_raised.
    + exists [(request_at off, r)]. split; [reflexivity|].
      now apply run_failed.
Qed.

(** With fuel left the loop makes at least one exchange. *)
Lemma run_starts fuel acc off es res :
  run (S fuel) acc off es res -> es <> [].
Proof. intros H; inversion H; discriminate. Qed.

(** A run that is still in the loop has used all its fuel. *)
Lemma run_length fuel acc off es res :
  run fuel acc off es res ->
  (List.length es <= fuel)%nat /\ (res = None -> List.length es = fuel).
Proof.
  induction 1; simpl; try (split; [lia|discriminate]).
  - split; [lia|reflexivity].
  - destruct IHrun as [Hle Hn]. split; [lia|]. intros ->. now rewrite Hn.
Qed.

(** The exchanges before the last one are pages that kept the loop going:
    after them the loop is in the state their items lead to. *)
Lemma run_split pre :
  forall fuel acc off e post res,
  run fuel acc off (pre ++ e :: post) res ->
  exists fuel',
    fuel = (List.length pre + fuel')%nat /\
    run fuel' (acc ++ concat (map page_items (map snd pre)))%list
        (offset_after off (map snd pre)) (e :: post) res.
Proof.
  induction pre as [|p pre IH]; intros fuel acc off e post res H.
  - exists fuel. simpl. now rewrite app_nil_r.
  - simpl in H.
    inversion H as [ | ? ? ? ? ? | ? ? ? ? ? ? ? | ? ? ? ? ? ? ? ? ?
                   | n acc' off' r data xs rest res' Hs R M Hrest ]; subst;
      try (now destruct pre).
    apply IH in Hrest. destruct Hrest as [fuel' [-> Hrun]].
    exists fuel'. split; [reflexivity|].
    assert (Hxs : page_items r = xs) by (unfold page_items; now rewrite R).
    simpl. rewrite Hxs, app_assoc. exact Hrun.
Qed.

(** The first request of a run is the one for the offset it starts from. *)
Lemma run_first fuel acc off req r post res :
  run fuel acc off ((req, r) :: post) res -> req = request_at off.
Proof. intros H; inversion H; reflexivity. Qed.

(** A response with a status other than 200 ends the run with the items
    gathered before it. *)
Lemma run_failure fuel acc off req r post res :
  run fuel acc off ((req, r) :: post) res ->
  status_code r <> 200 ->
  post = [] /\ res = Some (Returned acc).
Proof. intros H Hs; inversion H; subst; try contradiction; now split. Qed.

(** A page that the continuation test turns down ends the run with its items
    appended. *)
Lemma run_stop fuel acc off req r post res data xs :
  run fuel acc off ((req, r) :: post) res ->
  status_code r = 200 ->
  read_page r = Returned (data, xs) ->
  more data xs = false ->
  post = [] /\ res = Some (Returned (acc ++ xs)%list).
Proof.
  intros H Hs R M; inversion H; subst; try contradiction; try congruence.
  rewrite R in *. 
  match goal with E : Returned _ = Returned _ |- _ => inversion E; subst end.
  now split.
Qed.

(** With fuel for one more iteration, a page is followed by another request
    exactly when the continuation test accepts it. *)
Lemma run_goes_on fuel acc off req r post res data xs :
  run (S (S fuel)) acc off ((req, r) :: post) res ->
  status_code r = 200 ->
  read_page r = Returned (data, xs) ->
  (post <> [] <-> more data xs = true).
Proof.
  intros H Hs R; inversion H; subst; try contradiction; try congruence;
    rewrite R in *;
    match goal with E : Returned _ = Returned _ |- _ => inversion E; subst end.
  - split; [congruence|]. intros M. congruence.
  - split; [auto|]. intros _. eapply run_starts; eauto.
Qed.

(** The value a run returns after pages that all had status 200 is the
    items of these pages, page after page, behind what it started with. *)
Lemma run_result fuel acc off es l :
  run fuel acc off es (Some (Returned l)) ->
  Forall (fun e => status_code (snd e) = 200) es ->
  l = (acc ++ concat (map page_items (map snd es)))%list.
Proof.
  intros H. remember (Some (Returned l)) as res eqn:Hres. revert l Hres.
  induction H as [ acc off | fuel acc off r Hs | fuel acc off r e Hs R
                 | fuel acc off r data xs Hs R M
                 | fuel acc off r data xs rest res Hs R M Hrest IH ];
    intros l Hres Hall; try discriminate.
  - inversion Hall; subst. simpl in *. contradiction.
  - assert (Hxs : page_items r = xs) by (unfold page_items; now rewrite R).
    inversion Hres; subst. simpl. now rewrite app_nil_r.
  - assert (Hxs : page_items r = xs) by (unfold page_items; now rewrite R).
    inversion Hall; subst. rewrite (IH l eq_refl) by assumption.
    simpl. now rewrite app_assoc.
Qed.

Lemma accepts_spec r :
  accepts more r = true <->
  status_code r = 200 /\
  exists data xs, read_page r = Returned (data, xs) /\ more data xs = true.
Proof.
  unfold accepts. rewrite andb_true_iff, Z.eqb_eq. split.
  - intros [Hs H]. split; [exact Hs|].
    destruct (read_page r) as [[data xs]|]; [eauto|discriminate].
  - intros [Hs [data [xs [R M]]]]. now rewrite R.
Qed.

Lemma closes_spec r :
  closes more r = true <->
  status_code r = 200 /\
  exists data xs, read_page r = Returned (data, xs) /\ more data xs = false.
Proof.
  unfold closes. rewrite andb_true_iff, Z.eqb_eq. split.
  - intros [Hs H]. split; [exact Hs|].
    destruct (read_page r) as [[data xs]|]; [|discriminate].
    apply negb_true_iff in H. eauto.
  - intros [Hs [data [xs [R M]]]]. now rewrite R, M.
Qed.

Lemma page_accepts r acc off :
  accepts more r = true ->
  page more advance r acc off
  = Returned (Continue (acc ++ page_items r)%list (advance off (page_items r))).
Proof.
  unfold accepts, page, page_items. intros H.
  apply andb_prop in H. destruct H as [-> H].
  destruct (read_page r) as [[data xs]|]; [|discriminate]. now rewrite H.
Qed.

Lemma page_closes r acc off :
  closes more r = true ->
  page more advance r acc off = Returned (Break (acc ++ page_items r)%list).
Proof.
  unfold closes, page, page_items. intros H.
  apply andb_prop in H. destruct H as [-> H].
  destruct (read_page r) as [[data xs]|]; [|discriminate].
  now destruct (more data xs).
Qed.

(** Against a server whose every answer keeps the loop going, the loop is
    still running after any number of iterations, one request each. *)
Lemma paginate_diverges :
  (forall req st, accepts more (fst (serve req st)) = true) ->
  forall fuel acc off net,
    fst (paginate fuel acc off net) = None /\
    List.length (log (snd (paginate fuel acc off net))) = (List.length (log net) + fuel)%nat.
Proof.
  intros Hall. induction fuel as [|fuel IH]; intros acc off net; simpl.
  - split; [reflexivity|lia].
  - unfold send. specialize (Hall (request_at off) (server net)).
    destruct (serve (request_at off) (server net)) as [r s]. simpl in Hall.
    rewrite (page_accepts _ _ _ Hall).
    destruct (IH (acc ++ page_items r)%list (advance off (page_items r))
                 {| server := s; log := (log net ++ [(request_at off, r)])%list |})
      as [Hn Hl].
    split; [exact Hn|]. rewrite Hl. simpl. rewrite length_app. simpl. lia.
Qed.

(** When moreover no answer moves the offset, every request is the same. *)
Lemma paginate_stalls off :
  (forall req st, accepts more (fst (serve req st)) = true) ->
  (forall req st, advance off (page_items (fst (serve req st))) = off) ->
  forall fuel acc net,
    map fst (log (snd (paginate fuel acc off net)))
    = (map fst (log net) ++ repeat (request_at off) fuel)%list.
Proof.
  intros Hall Hstall. induction fuel as [|fuel IH]; intros acc net; simpl.
  - now rewrite app_nil_r.
  - unfold send. specialize (Hall (request_at off) (server net)).
    specialize (Hstall (request_at off) (server net)).
    destruct (serve (request_at off) (server net)) as [r s]. simpl in Hall, Hstall.
    rewrite (page_accepts _ _ _ Hall), Hstall, IH. simpl.
    rewrite map_app. simpl. now rewrite <- app_assoc.
Qed.

End PaginateFacts.

(** ** Runs against a scripted server *)

Section ScriptFacts.

Variable fallback : Response.
Variable request_at : Z -> Request.
Variable more : json -> list json -> bool.
Variable advance : Z -> list json -> Z.

Local Abbreviation paginate := (paginate (play fallback) request_at more advance).

(** Pages that keep the loop going followed by one that ends it: with fuel
    for all of them the loop returns their items in the order of the script,
    and has taken exactly these pages from the server. *)
Lemma paginate_script pages :
  forall last rest fuel acc off lg,
  forallb (accepts more) pages = true ->
  closes more last = true ->
  (List.length pages < fuel)%nat ->
  let out := paginate fuel acc off {| server := (pages ++ last :: rest)%list; log := lg |} in
  fst out = Some (Returned (acc ++ concat (map page_items (pages ++ [last])))%list) /\
  server (snd out) = rest /\
  map snd (log (snd out)) = (map snd lg ++ pages ++ [last])%list.
Proof.
  induction pages as [|p pages IH]; intros last rest fuel acc off lg Hp Hl Hf out;
    destruct fuel as [|fuel]; try (simpl in Hf; lia); subst out; simpl.
  - unfold send. simpl. rewrite (page_closes _ _ _ _ _ Hl). simpl.
    rewrite app_nil_r, map_app. auto.
  - simpl in Hp. apply andb_prop in Hp. destruct Hp as [Hp Hps].
    unfold send. simpl. rewrite (page_accepts _ _ _ _ _ Hp).
    destruct (IH last rest fuel (acc ++ page_items p)%list
                 (advance off (page_items p))
                 (lg ++ [(request_at off, p)])%list Hps Hl) as [H1 [H2 H3]];
      [simpl in Hf; lia|].
    split; [|split].
    + rewrite H1. now rewrite <- app_assoc.
    + exact H2.
    + rewrite H3, map_app. simpl. now rewrite <- app_assoc.
Qed.

End ScriptFacts.

(** ** Offsets are readable from the request *)

Lemma str_int_inj (a b : Z) : str_int a = str_int b -> a = b.
Proof.
  assert (Hnil : forall z, Z.to_int z <> Decimal.Pos Decimal.Nil /\
                           Z.to_int z <> Decimal.Neg Decimal.Nil).
  { intros z. pose proof (DecimalZ.to_of (Z.to_int z)) as H.
    rewrite DecimalZ.of_to in H.
    split; intros E; rewrite E in H; discriminate. }
  unfold str_int. intros H.
  apply DecimalZ.to_int_inj.
  pose proof (NilZero.isi (Z.to_int a) (proj1 (Hnil a)) (proj2 (Hnil a))) as Ha.
  pose proof (NilZero.isi (Z.to_int b) (proj1 (Hnil b)) (proj2 (Hnil b))) as Hb.
  rewrite H in Ha. rewrite Ha in Hb. now inversion Hb.
Qed.

Lemma append_cancel (p a b : string) : (p ++ a = p ++ b)%string -> a = b.
Proof. induction p as [|c p IH]; simpl; intros H; [exact H|]. inversion H. auto. Qed.

Section RequestFacts.

Variable getenv : string -> option string.

(** Two requests of a fetcher differ when their offsets do. *)
Lemma request_of_inj (f : fetcher) (auth : OAuth1) (a b : Z) :
  request_of getenv f auth a = request_of getenv f auth b -> a = b.
Proof.
  destruct f; simpl; unfold record_list_request, dataset_request, suiteql_request,
    get_request, post_request; intros H; injection H as H;
    repeat first [ apply append_cancel in H
                 | progress cbn [append] in H
                 | injection H as H ];
    now apply str_int_inj.
Qed.

End RequestFacts.

(** ** The three fetchers *)

Lemma offset_after_record_list endpoint rs :
  forall off,
  offset_after (advance_of (RecordList endpoint)) off rs
  = off + Z.of_nat (List.length (concat (map page_items rs))).
Proof.
  unfold offset_after. induction rs as [|r rs IH]; intros off; simpl.
  - lia.
  - rewrite IH, length_app. lia.
Qed.

Lemma offset_after_fixed (step : Z) (advance : Z -> list json -> Z) rs :
  (forall off xs, advance off xs = off + step) ->
  forall off, offset_after advance off rs = off + Z.of_nat (List.length rs) * step.
Proof.
  intros Hadv. unfold offset_after. induction rs as [|r rs IH]; intros off.
  - simpl. lia.
  - cbn [fold_left]. rewrite IH, Hadv. cbn [List.length]. lia.
Qed.

Lemma has_more_true default d :
  assoc "hasMore" d = Some (JBool true) -> has_more default (JObj d) = true.
Proof. unfold has_more. simpl. now intros ->. Qed.

Lemma has_more_missing default d :
  py_bool default = false ->
  assoc "hasMore" d = None -> has_more default (JObj d) = false.
Proof. unfold has_more. simpl. now intros ? ->. Qed.

Lemma nth_error_cut {A : Type} (l : list A) (k : nat) (x : A) :
  nth_error l k = Some x ->
  l = (firstn k l ++ x :: skipn (S k) l)%list /\ List.length (firstn k l) = k.
Proof.
  revert k. induction l as [|a l IH]; intros [|k] H; simpl in H; try discriminate.
  - inversion H; subst. now split.
  - destruct (IH k H) as [E1 E2].
    change (skipn (S (S k)) (a :: l)) with (skipn (S k) l).
    change (firstn (S k) (a :: l)) with (a :: firstn k l).
    split; [|simpl; now rewrite E2].
    change (a :: l = a :: (firstn k l ++ x :: skipn (S k) l))%list.
    now rewrite <- E1.
Qed.

Section FetchFacts.

Variable getenv : string -> option string.
Context {Server : Type}.
Variable serve : Request -> Server -> Response * Server.


(** Each fetcher is the common loop with its own request, continuation test
    and offset step. *)
Lemma fetch_paginate (f : fetcher) (fuel : nat) (auth : OAuth1) (net : network Server) :
  fetch getenv serve f fuel auth net
  = paginate serve (request_of getenv f auth) (more_of f) (advance_of f) fuel [] 0 net.
Proof.
  destruct f as [endpoint|dataset_id limit|query_string]; unfold fetch,
    fetch_all_netsuite_records, fetch_all_dataset_records, run_suiteql_query;
    generalize (@nil json), 0; revert net;
    induction fuel as [|fuel IH]; intros net acc off; simpl; try reflexivity;
    destruct (send serve _ net) as [r net'].
  - rewrite (record_list_page_eq endpoint).
    destruct (page _ _ r acc off) as [[]|]; auto.
  - rewrite (dataset_page_eq dataset_id).
    destruct (page _ _ r acc off) as [[]|]; auto.
  - rewrite (suiteql_page_eq query_string).
    destruct (page _ _ r acc off) as [[]|]; auto.
Qed.

(** The exchanges of a fetch on a fresh connection form a run from offset 0
    with nothing gathered. *)
Lemma fetch_run (f : fetcher) (fuel : nat) (auth : OAuth1) (s : Server) :
  run (request_of getenv f auth) (more_of f) (advance_of f) fuel [] 0
      (log (snd (fetch getenv serve f fuel auth (connect s))))
      (fst (fetch getenv serve f fuel auth (connect s))).
Proof.
  rewrite fetch_paginate.
  destruct (paginate_run serve (request_of getenv f auth) (more_of f) (advance_of f)
              fuel [] 0 (connect s)) as [es [Hl Hr]].
  simpl in Hl. now rewrite Hl.
Qed.

(** The request number [k] of a fetch (counting from 0) is the one for the
    offset reached after the first [k] pages. *)
Lemma fetch_request (f : fetcher) (fuel : nat) (auth : OAuth1) (s : Server)
    (k : nat) (req : Request) :
  nth_error (map fst (log (snd (fetch getenv serve f fuel auth (connect s))))) k = Some req ->
  req = request_of getenv f auth
          (offset_after (advance_of f) 0
             (firstn k (map snd (log (snd (fetch getenv serve f fuel auth (connect s))))))).
Proof.
  intros H. pose proof (fetch_run f fuel auth s) as Hrun.
  rewrite nth_error_map in H.
  destruct (nth_error _ k) as [[req' r]|] eqn:E; [|discriminate].
  simpl in H. inversion H; subst req'. clear H.
  destruct (nth_error_cut _ _ _ E) as [Hcut _].
  rewrite Hcut in Hrun. apply run_split in Hrun.
  destruct Hrun as [fuel' [_ Hrun]]. apply run_first in Hrun.
  now rewrite firstn_map.
Qed.

End FetchFacts.

(** ** Pagination *)

Section PaginationClaims.

Variable getenv : string -> option string.
Context {Server : Type}.
Variable serve : Request -> Server -> Response * Server.


(** C1: in each of the three paginated fetchers (record list, dataset,
    SuiteQL), a response whose status is not 200 is the last exchange of the
    call, and the call returns, without raising, the items of the pages
    received before it, in order; when the first response already fails, the
    result is the empty list. *)
Theorem fetch_stops_on_failure (f : fetcher) (fuel : nat) (auth : OAuth1)
    (s : Server) (pre post : list (Request * Response)) (req : Request)
    (r : Response) :
  log (snd (fetch getenv serve f fuel auth (connect s))) = (pre ++ (req, r) :: post)%list ->
  status_code r <> 200 ->
  post = [] /\
  fst (fetch getenv serve f fuel auth (connect s))
  = Some (Returned (concat (map page_items (map snd pre)))) /\
  (pre = [] -> fst (fetch getenv serve f fuel auth (connect s)) = Some (Returned [])).
Proof.
  intros Hl Hs. pose proof (fetch_run getenv serve f fuel auth s) as Hrun.
  rewrite Hl in Hrun. apply run_split in Hrun. destruct Hrun as [fuel' [_ Hrun]].
  apply run_failure in Hrun; [|exact Hs]. destruct Hrun as [Hpost Hres].
  simpl in Hres. repeat split; try assumption.
  intros ->. exact Hres.
Qed.

(** C2: in [fetch_all_netsuite_records], the request number [k+1] carries as
    its offset the number of items received in the first [k] pages. *)
Theorem record_list_offset_counts_items (fuel : nat) (auth : OAuth1)
    (endpoint : string) (s : Server) (k : nat) (req : Request) :
  let exchanges := log (snd (fetch_all_netsuite_records getenv serve fuel auth endpoint (connect s))) in
  nth_error (map fst exchanges) k = Some req ->
  req = record_list_request getenv auth endpoint
          (Z.of_nat (List.length (concat (map page_items (firstn k (map snd exchanges)))))).
Proof.
  intros exchanges H. subst exchanges.
  apply (fetch_request getenv serve (RecordList endpoint)) in H.
  now rewrite offset_after_record_list in H.
Qed.

(** C3: in [fetch_all_dataset_records] and in [run_suiteql_query], the request
    number [k+1] carries the offset [k * limit], whatever the number of items
    in the pages before it. *)
Theorem fixed_limit_offset (fuel : nat) (auth : OAuth1) (s : Server) (k : nat)
    (req : Request) :
  (forall dataset_id limit,
     nth_error (map fst (log (snd (fetch_all_dataset_records getenv serve fuel auth dataset_id limit
                                     (connect s))))) k = Some req ->
     req = dataset_request getenv auth dataset_id limit (Z.of_nat k * limit)) /\
  (forall query_string,
     nth_error (map fst (log (snd (run_suiteql_query getenv serve fuel auth query_string
                                     (connect s))))) k = Some req ->
     req = suiteql_request getenv auth query_string (Z.of_nat k * suiteql_limit)).
Proof.
  assert (Hk : forall (es : list (Request * Response)),
             nth_error (map fst es) k = Some req ->
             List.length (firstn k (map snd es)) = k).
  { intros es H. apply firstn_length_le.
    assert (k < List.length (map fst es))%nat
      by (apply nth_error_Some; congruence).
    rewrite length_map in *. lia. }
  split.
  - intros dataset_id limit H. pose proof (Hk _ H) as Hlen.
    apply (fetch_request getenv serve (Dataset dataset_id limit)) in H.
    cbv beta iota delta [fetch] in H.
    rewrite (offset_after_fixed limit), Hlen in H; [exact H|reflexivity].
  - intros query_string H. pose proof (Hk _ H) as Hlen.
    apply (fetch_request getenv serve (SuiteQL query_string)) in H.
    cbv beta iota delta [fetch] in H.
    rewrite (offset_after_fixed suiteql_limit), Hlen in H; [exact H|reflexivity].
Qed.

(** C4: [run_suiteql_query] never looks at [hasMore] (setting the field to any
    value changes nothing in what the loop body does), and after a page it
    sends a further request exactly when the page held at least [limit]
    (1000) items. *)
Theorem suiteql_continues_iff_full_page :
  (forall (r : Response) (v : json) (all_items : list json) (offset : Z),
     suiteql_page (with_field "hasMore" v r) all_items offset
     = suiteql_page r all_items offset) /\
  (forall (fuel : nat) (auth : OAuth1) (query_string : string) (s : Server)
          (k : nat) (req : Request) (r : Response) (data : json) (xs : list json),
     let exchanges := log (snd (run_suiteql_query getenv serve fuel auth query_string (connect s))) in
     nth_error exchanges k = Some (req, r) ->
     status_code r = 200 ->
     read_page r = Returned (data, xs) ->
     (S k < fuel)%nat ->
     ((S k < List.length exchanges)%nat <-> suiteql_limit <= Z.of_nat (List.length xs))).
Proof.
  split.
  - intros r v acc off. unfold suiteql_page, with_field, response_json. simpl.
    destruct (body r) as [[]|]; reflexivity.
  - intros fuel auth query_string s k req r data xs exchanges Hk Hs R Hfuel.
    subst exchanges.
    pose proof (fetch_run getenv serve (SuiteQL query_string) fuel auth s) as Hrun.
    simpl in Hrun. destruct (nth_error_split _ _ Hk) as [pre [post [Hcut Hlen]]].
    rewrite Hcut in Hrun |- *. apply run_split in Hrun.
    destruct Hrun as [fuel' [Hf Hrun]]. rewrite Hlen in Hf.
    destruct fuel' as [|[|fuel']]; try lia.
    apply (run_goes_on _ _ _ _ _ _ _ _ _ _ _ _ Hrun Hs) in R.
    rewrite length_app, Hlen. simpl.
    unfold more_of in R. rewrite negb_true_iff, Z.ltb_ge in R.
    rewrite <- R. destruct post; simpl; split; intros; try lia; congruence.
Qed.

(** C5: the value a fetcher returns is the concatenation of the item lists of
    the pages, in the order they were fetched, nothing dropped and nothing
    merged.  First part: against a server that hands out the pages [pages]
    (each one keeping the loop going) and then [last] (ending it), the fetcher
    returns exactly their items in this order, for any fuel above the number
    of pages.  Second part: against any server, a returned value after pages
    of status 200 is the concatenation of the logged pages' items. *)
Theorem fetch_concatenates_pages (f : fetcher) (auth : OAuth1) :
  (forall (fallback : Response) (pages : list Response) (last : Response)
          (rest : list Response) (fuel : nat),
     forallb (continues f) pages = true ->
     stops f last = true ->
     (List.length pages < fuel)%nat ->
     let out := fetch getenv (play fallback) f fuel auth
                  (connect (pages ++ last :: rest)%list) in
     fst out = Some (Returned (concat (map page_items (pages ++ [last])))) /\
     map snd (log (snd out)) = (pages ++ [last])%list) /\
  (forall (fuel : nat) (s : Server) (l : list json),
     let out := fetch getenv serve f fuel auth (connect s) in
     fst out = Some (Returned l) ->
     Forall (fun e => status_code (snd e) = 200) (log (snd out)) ->
     l = concat (map page_items (map snd (log (snd out))))).
Proof.
  split.
  - intros fallback pages last rest fuel Hp Hl Hf out. subst out.
    rewrite fetch_paginate.
    destruct (paginate_script fallback (request_of getenv f auth)
                (more_of f) (advance_of f) pages last rest fuel [] 0 [] Hp Hl Hf)
      as [H1 [_ H3]].
    split; assumption.
  - intros fuel s l out Hres Hall. subst out.
    pose proof (fetch_run getenv serve f fuel auth s) as Hrun.
    rewrite Hres in Hrun. apply run_result in Hrun; assumption.
Qed.

(** C9: the loops need not terminate.  When every answer of the server is a
    page of status 200 with [hasMore] true, then [fetch_all_netsuite_records]
    with pages of zero items, and [fetch_all_dataset_records] with a limit of
    zero, are still in the loop after any number of iterations, having sent
    one request per iteration, all of them for offset 0. *)
Theorem fetch_loops_may_not_terminate (auth : OAuth1) (s : Server) :
  (forall endpoint,
     (forall req st, let r := fst (serve req st) in
        status_code r = 200 /\
        exists d, read_page r = Returned (JObj d, []) /\
                  assoc "hasMore" d = Some (JBool true)) ->
     forall fuel,
       let out := fetch_all_netsuite_records getenv serve fuel auth endpoint (connect s) in
       fst out = None /\
       map fst (log (snd out)) = repeat (record_list_request getenv auth endpoint 0) fuel) /\
  (forall dataset_id,
     (forall req st, let r := fst (serve req st) in
        status_code r = 200 /\
        exists d xs, read_page r = Returned (JObj d, xs) /\
                     assoc "hasMore" d = Some (JBool true)) ->
     forall fuel,
       let out := fetch_all_dataset_records getenv serve fuel auth dataset_id 0 (connect s) in
       fst out = None /\
       map fst (log (snd out)) = repeat (dataset_request getenv auth dataset_id 0 0) fuel).
Proof.
  split.
  - intros endpoint Hall fuel out. subst out.
    change (fetch_all_netsuite_records getenv serve fuel auth endpoint (connect s))
      with (fetch getenv serve (RecordList endpoint) fuel auth (connect s)).
    rewrite fetch_paginate.
    assert (Hacc : forall req st,
               accepts (more_of (RecordList endpoint)) (fst (serve req st)) = true).
    { intros req st. destruct (Hall req st) as [Hs [d [R M]]].
      unfold accepts. rewrite R, Hs. simpl. now apply has_more_true. }
    split.
    + now apply paginate_diverges.
    + rewrite paginate_stalls; [reflexivity|exact Hacc|].
      intros req st. destruct (Hall req st) as [_ [d [R _]]].
      unfold page_items. rewrite R. simpl. lia.
  - intros dataset_id Hall fuel out. subst out.
    change (fetch_all_dataset_records getenv serve fuel auth dataset_id 0 (connect s))
      with (fetch getenv serve (Dataset dataset_id 0) fuel auth (connect s)).
    rewrite fetch_paginate.
    assert (Hacc : forall req st,
               accepts (more_of (Dataset dataset_id 0)) (fst (serve req st)) = true).
    { intros req st. destruct (Hall req st) as [Hs [d [xs [R M]]]].
      unfold accepts. rewrite R, Hs. simpl. now apply has_more_true. }
    split.
    + now apply paginate_diverges.
    + rewrite paginate_stalls; [reflexivity|exact Hacc|].
      intros req st. simpl. lia.
Qed.

(** C10: in [fetch_all_netsuite_records] and [fetch_all_dataset_records], a
    page of status 200 whose body has no [hasMore] field is the last exchange:
    the call returns the items gathered so far followed by the items of this
    page, however many they are.  The loop body does with such a page what it
    does with the same page carrying [hasMore] false. *)
Theorem missing_flag_ends_loop (f : fetcher) (fuel : nat) (auth : OAuth1)
    (s : Server) (pre post : list (Request * Response)) (req : Request)
    (r : Response) (d : list (string * json)) (xs : list json) :
  reads_flag f = true ->
  log (snd (fetch getenv serve f fuel auth (connect s))) = (pre ++ (req, r) :: post)%list ->
  status_code r = 200 ->
  read_page r = Returned (JObj d, xs) ->
  assoc "hasMore" d = None ->
  post = [] /\
  fst (fetch getenv serve f fuel auth (connect s))
  = Some (Returned (concat (map page_items (map snd pre)) ++ xs)%list) /\
  (forall all_items offset limit,
     record_list_page r all_items offset
     = record_list_page (with_field "hasMore" (JBool false) r) all_items offset /\
     dataset_page r limit all_items offset
     = dataset_page (with_field "hasMore" (JBool false) r) limit all_items offset).
Proof.
  intros Hf Hl Hs R Hmiss.
  pose proof (fetch_run getenv serve f fuel auth s) as Hrun.
  rewrite Hl in Hrun. apply run_split in Hrun. destruct Hrun as [fuel' [_ Hrun]].
  assert (M : more_of f (JObj d) xs = false).
  { destruct f; try discriminate; simpl; now apply has_more_missing. }
  destruct (run_stop _ _ _ _ _ _ _ _ _ _ _ _ Hrun Hs R M) as [Hpost Hres].
  simpl in Hres. repeat split; try assumption.
  - apply read_page_data in R. destruct R as [d' [Hd [Hb _]]].
    inversion Hd; subst d'.
    unfold record_list_page, with_field, response_json. simpl. rewrite Hb. simpl.
    now rewrite Hmiss.
  - apply read_page_data in R. destruct R as [d' [Hd [Hb _]]].
    inversion Hd; subst d'.
    unfold dataset_page, with_field, response_json. simpl. rewrite Hb. simpl.
    now rewrite Hmiss.
Qed.

End PaginationClaims.

(** ** Single-record operations *)

(** A string that does not end in [c] is left as it is by [rstrip]. *)
Lemma str_rstrip_same (c : ascii) (s : string) :
  ends_with c s = false -> str_rstrip c s = s.
Proof.
  induction s as [|a s IH]; [reflexivity|].
  destruct s as [|b s].
  - simpl. now intros ->.
  - intros H. change (ends_with c (String a (String b s)))
      with (ends_with c (String b s)) in H.
    change (str_rstrip c (String a (String b s)))
      with (match str_rstrip c (String b s) with
            | EmptyString => if Ascii.eqb a c then EmptyString else String a EmptyString
            | t => String a t
            end).
    now rewrite (IH H).
Qed.

Section RecordClaims.

Variable getenv : string -> option string.
Context {Server : Type}.
Variable serve : Request -> Server -> Response * Server.

(** C6, amended: on a 204 response, [create_netsuite_record] returns
    [{"id": x}] when the [Location] header has a non-empty value, [x] being
    the last [/]-delimited segment of the value with its trailing slashes
    removed (the last segment of the value itself when it does not end in a
    slash); it returns the empty mapping, not [None], when the header is
    missing or empty. *)
Theorem create_204_identifier (auth : OAuth1) (endpoint : string) (payload : json)
    (net : network Server) :
  let response :=
    fst (send serve (post_request (record_list_url getenv endpoint) payload [] auth) net) in
  let result := fst (create_netsuite_record getenv serve auth endpoint payload net) in
  status_code response = 204 ->
  (forall location,
     headers response "Location" = Some location ->
     location <> EmptyString ->
     result = Returned (JObj [("id", JStr (last_segment (str_rstrip "/" location)))]) /\
     (ends_with "/" location = false ->
      result = Returned (JObj [("id", JStr (last_segment location))]))) /\
  (headers response "Location" = None \/
   headers response "Location" = Some EmptyString ->
   result = Returned (JObj [])).
Proof.
  intros response result Hs. subst response result.
  unfold create_netsuite_record, record_list_url.
  destruct (send serve _ net) as [r net']. simpl in *.
  unfold create_result. rewrite Hs. simpl. split.
  - intros location Hloc Hne. rewrite Hloc.
    assert (Ht : String.eqb location EmptyString = false)
      by now apply String.eqb_neq.
    rewrite Ht. simpl. rewrite py_last_split. simpl.
    split; [reflexivity|]. intros He. now rewrite (str_rstrip_same _ _ He).
  - intros [-> | ->]; reflexivity.
Qed.

(** C7, amended: [update_netsuite_record] returns the parsed body when the
    status is 200 or 201 and the body is JSON, the empty mapping when the
    status is 204, and [None] for any other status; nothing is raised in
    these cases.  With a status of 200 or 201 and a body that is not JSON the
    decoding error of [response.json()] leaves the call. *)
Theorem update_result_by_status (auth : OAuth1) (endpoint record_id : string)
    (payload : json) (net : network Server) :
  let response :=
    fst (send serve
           (patch_request (record_base_url getenv ++ "/" ++ endpoint ++ "/" ++ record_id)
              payload auth) net) in
  let result :=
    fst (update_netsuite_record getenv serve auth endpoint record_id payload net) in
  (status_code response = 200 \/ status_code response = 201 ->
   (forall v, body response = Some v -> result = Returned v) /\
   (body response = None -> result = Raised JSONDecodeError)) /\
  (status_code response = 204 -> result = Returned (JObj [])) /\
  (status_code response <> 200 -> status_code response <> 201 ->
   status_code response <> 204 -> result = Returned JNull).
Proof.
  intros response result. subst response result.
  unfold update_netsuite_record.
  destruct (send serve _ net) as [r net']. simpl.
  unfold update_result, response_json. split; [|split].
  - intros Hs. split.
    + intros v Hv. rewrite Hv. now destruct Hs as [-> | ->].
    + intros Hv. rewrite Hv. now destruct Hs as [-> | ->].
  - now intros ->.
  - intros H0 H1 H4.
    apply Z.eqb_neq in H0, H1, H4. now rewrite H0, H1, H4.
Qed.

(** C8: [delete_netsuite_record] always returns a boolean, without raising,
    and the boolean is the test "the status is 204". *)
Theorem delete_true_iff_204 (auth : OAuth1) (endpoint record_id : string)
    (net : network Server) :
  let response :=
    fst (send serve
           (delete_request (record_base_url getenv ++ "/" ++ endpoint ++ "/" ++ record_id)
              auth) net) in
  fst (delete_netsuite_record getenv serve auth endpoint record_id net)
  = Returned (status_code response =? 204).
Proof.
  intros response. subst response. unfold delete_netsuite_record.
  destruct (send serve _ net) as [r net']. simpl.
  unfold delete_result. now destruct (status_code r =? 204).
Qed.

(** [fetch_record_by_id] gives the parsed body on status 200 and [None] on
    any other status. *)
Lemma fetch_record_by_id_status (auth : OAuth1) (endpoint record_id : string)
    (net : network Server) :
  let response :=
    fst (send serve
           (get_request (record_base_url getenv ++ "/" ++ endpoint ++ "/" ++ record_id)
              auth) net) in
  fst (fetch_record_by_id getenv serve auth endpoint record_id net)
  = if status_code response =? 200 then response_json response else Returned JNull.
Proof.
  intros response. subst response. unfold fetch_record_by_id.
  destruct (send serve _ net) as [r net']. simpl.
  now destruct (status_code r =? 200).
Qed.

End RecordClaims.

(** ** The theorems at work on sample servers *)

(** C1 at work: a record list whose second request is answered 503 gives the
    two records of the first page; a dataset and a query whose first request
    fails give the empty list. *)
Lemma fetch_stops_on_failure_witness :
  fst (fetch sample_env sample_server (RecordList "customer") 5 sample_auth
         (connect [items_page [sample_record 1; sample_record 2] flag_true;
                   error_page 503;
                   items_page [sample_record 3] flag_false]))
  = Some (Returned [sample_record 1; sample_record 2]) /\
  fst (fetch sample_env sample_server (Dataset "custdataset_revenue" 1000) 5
         sample_auth (connect [error_page 401]))
  = Some (Returned []) /\
  fst (fetch sample_env sample_server (SuiteQL "SELECT id FROM customer") 5
         sample_auth (connect [error_page 429]))
  = Some (Returned []).
Proof.
  split; [|split].
  - refine (proj1 (proj2 (fetch_stops_on_failure sample_env sample_server
              (RecordList "customer") 5 sample_auth _
              [(record_list_request sample_env sample_auth "customer" 0,
                items_page [sample_record 1; sample_record 2] flag_true)]
              [] (record_list_request sample_env sample_auth "customer" 2)
              (error_page 503) _ _))).
    + reflexivity.
    + simpl. lia.
  - refine (proj2 (proj2 (fetch_stops_on_failure sample_env sample_server
              (Dataset "custdataset_revenue" 1000) 5 sample_auth _ [] []
              (dataset_request sample_env sample_auth "custdataset_revenue" 1000 0)
              (error_page 401) _ _)) eq_refl).
    + reflexivity.
    + simpl. lia.
  - refine (proj2 (proj2 (fetch_stops_on_failure sample_env sample_server
              (SuiteQL "SELECT id FROM customer") 5 sample_auth _ [] []
              (suiteql_request sample_env sample_auth "SELECT id FROM customer" 0)
              (error_page 429) _ _)) eq_refl).
    + reflexivity.
    + simpl. lia.
Defined.

(** C2 at work: after pages of 3 and 1 records the third request asks for
    offset 4. *)
Lemma record_list_offset_counts_items_witness :
  let exchanges :=
    log (snd (fetch_all_netsuite_records sample_env sample_server 10 sample_auth
                "customer" (connect customer_pages))) in
  nth_error (map fst exchanges) 2
  = Some (get_request
            "https://123456.suitetalk.api.netsuite.com/services/rest/record/v1/customer?offset=4"
            sample_auth) /\
  get_request
    "https://123456.suitetalk.api.netsuite.com/services/rest/record/v1/customer?offset=4"
    sample_auth
  = record_list_request sample_env sample_auth "customer" 4.
Proof.
  split; [reflexivity|].
  exact (record_list_offset_counts_items sample_env sample_server 10 sample_auth
           "customer" customer_pages 2
           (get_request
              "https://123456.suitetalk.api.netsuite.com/services/rest/record/v1/customer?offset=4"
              sample_auth)
           eq_refl).
Defined.

(** C3 at work: with a limit of 2 the third dataset request asks for offset 4
    although the second page had one row; the second query request asks for
    offset 1000. *)
Lemma fixed_limit_offset_witness :
  (nth_error
     (map fst (log (snd (fetch_all_dataset_records sample_env sample_server 10
                           sample_auth "custdataset_revenue" 2 (connect dataset_pages)))))
     2
   = Some (get_request
             "https://123456.suitetalk.api.netsuite.com/services/rest/query/v1/dataset/custdataset_revenue/result?limit=2&offset=4"
             sample_auth) /\
   get_request
     "https://123456.suitetalk.api.netsuite.com/services/rest/query/v1/dataset/custdataset_revenue/result?limit=2&offset=4"
     sample_auth
   = dataset_request sample_env sample_auth "custdataset_revenue" 2 (Z.of_nat 2 * 2)) /\
  (nth_error
     (map fst (log (snd (run_suiteql_query sample_env sample_server 10 sample_auth
                           sample_query (connect query_pages)))))
     1
   = Some (post_request
             "https://123456.suitetalk.api.netsuite.com/services/rest/query/v1/suiteql?limit=1000&offset=1000"
             (JObj [("q", JStr sample_query)]) suiteql_headers sample_auth) /\
   post_request
     "https://123456.suitetalk.api.netsuite.com/services/rest/query/v1/suiteql?limit=1000&offset=1000"
     (JObj [("q", JStr sample_query)]) suiteql_headers sample_auth
   = suiteql_request sample_env sample_auth sample_query (Z.of_nat 1 * suiteql_limit)).
Proof.
  split; (split; [reflexivity|]).
  - exact (proj1 (fixed_limit_offset sample_env sample_server 10 sample_auth
                    dataset_pages 2 _)
             "custdataset_revenue" 2 eq_refl).
  - exact (proj2 (fixed_limit_offset sample_env sample_server 10 sample_auth
                    query_pages 1 _)
             sample_query eq_refl).
Defined.

(** C4 at work: after the full page the query asks for another one, after the
    page of one row it does not. *)
Lemma suiteql_continues_iff_full_page_witness :
  let exchanges :=
    log (snd (run_suiteql_query sample_env sample_server 5 sample_auth sample_query
                (connect query_pages))) in
  ((1 < List.length exchanges)%nat
   <-> suiteql_limit <= Z.of_nat (List.length (repeat (sample_record 0) 1000))) /\
  ((2 < List.length exchanges)%nat
   <-> suiteql_limit <= Z.of_nat (List.length [sample_record 1])).
Proof.
  split.
  - refine (proj2 (suiteql_continues_iff_full_page sample_env sample_server)
              5%nat sample_auth sample_query query_pages 0%nat
              (suiteql_request sample_env sample_auth sample_query 0) full_page
              (JObj [("items", JArr (repeat (sample_record 0) 1000))])
              (repeat (sample_record 0) 1000) _ _ _ _);
      [reflexivity|reflexivity|reflexivity|lia].
  - refine (proj2 (suiteql_continues_iff_full_page sample_env sample_server)
              5%nat sample_auth sample_query query_pages 1%nat
              (suiteql_request sample_env sample_auth sample_query 1000)
              (items_page [sample_record 1] [])
              (JObj [("items", JArr [sample_record 1])])
              [sample_record 1] _ _ _ _);
      [reflexivity|reflexivity|reflexivity|lia].
Defined.

(** C5 at work: two pages that share record 2 give a result in which record 2
    occurs twice; the three customer pages give their six records in order. *)
Lemma fetch_concatenates_pages_witness :
  fst (fetch sample_env sample_server (RecordList "customer") 3 sample_auth
         (connect overlapping_pages))
  = Some (Returned [sample_record 1; sample_record 2; sample_record 2; sample_record 3]) /\
  [sample_record 1; sample_record 2; sample_record 3;
   sample_record 4; sample_record 5; sample_record 6]
  = concat (map page_items
              (map snd (log (snd (fetch sample_env sample_server (RecordList "customer")
                                    9 sample_auth (connect customer_pages)))))).
Proof.
  split.
  - refine (proj1 (proj1 (fetch_concatenates_pages sample_env sample_server
                            (RecordList "customer") sample_auth)
                     _ [items_page [sample_record 1; sample_record 2] flag_true]
                     (items_page [sample_record 2; sample_record 3] flag_false)
                     [] 3%nat _ _ _));
      [reflexivity|reflexivity|simpl; lia].
  - refine (proj2 (fetch_concatenates_pages sample_env sample_server
                     (RecordList "customer") sample_auth)
              9%nat customer_pages _ _ _).
    + reflexivity.
    + repeat constructor.
Defined.

(** C9 at work: a server that always answers an empty page with [hasMore]
    true keeps the record-list loop at offset 0 for 25 iterations; a server
    that always answers [hasMore] true keeps the dataset loop with limit 0 at
    offset 0 likewise. *)
Lemma fetch_loops_may_not_terminate_witness :
  (let out := fetch_all_netsuite_records sample_env (always (items_page [] flag_true))
                25 sample_auth "customer" (connect tt) in
   fst out = None /\
   map fst (log (snd out))
   = repeat (record_list_request sample_env sample_auth "customer" 0) 25) /\
  (let out := fetch_all_dataset_records sample_env
                (always (items_page [sample_record 1] flag_true))
                25 sample_auth "custdataset_revenue" 0 (connect tt) in
   fst out = None /\
   map fst (log (snd out))
   = repeat (dataset_request sample_env sample_auth "custdataset_revenue" 0 0) 25).
Proof.
  split.
  - apply (proj1 (fetch_loops_may_not_terminate sample_env
                    (always (items_page [] flag_true)) sample_auth tt) "customer").
    intros req st. simpl. split; [reflexivity|].
    exists (("items", JArr []) :: flag_true). split; reflexivity.
  - apply (proj2 (fetch_loops_may_not_terminate sample_env
                    (always (items_page [sample_record 1] flag_true)) sample_auth tt)
             "custdataset_revenue").
    intros req st. simpl. split; [reflexivity|].
    exists (("items", JArr [sample_record 1]) :: flag_true), [sample_record 1].
    split; reflexivity.
Defined.

(** C10 at work: the second page has no [hasMore]; the call returns the four
    records of the first two pages and never asks for the third. *)
Lemma missing_flag_ends_loop_witness :
  fst (fetch sample_env sample_server (RecordList "customer") 10 sample_auth
         (connect unflagged_pages))
  = Some (Returned [sample_record 1; sample_record 2; sample_record 3; sample_record 4]) /\
  fst (fetch sample_env sample_server (Dataset "custdataset_revenue" 2) 10 sample_auth
         (connect unflagged_pages))
  = Some (Returned [sample_record 1; sample_record 2; sample_record 3; sample_record 4]).
Proof.
  split.
  - refine (proj1 (proj2 (missing_flag_ends_loop sample_env sample_server
              (RecordList "customer") 10 sample_auth unflagged_pages
              [(record_list_request sample_env sample_auth "customer" 0,
                items_page [sample_record 1; sample_record 2] flag_true)]
              [] (record_list_request sample_env sample_auth "customer" 2)
              (items_page [sample_record 3; sample_record 4] [])
              [("items", JArr [sample_record 3; sample_record 4])]
              [sample_record 3; sample_record 4] _ _ _ _ _)));
      reflexivity.
  - refine (proj1 (proj2 (missing_flag_ends_loop sample_env sample_server
              (Dataset "custdataset_revenue" 2) 10 sample_auth unflagged_pages
              [(dataset_request sample_env sample_auth "custdataset_revenue" 2 0,
                items_page [sample_record 1; sample_record 2] flag_true)]
              [] (dataset_request sample_env sample_auth "custdataset_revenue" 2 2)
              (items_page [sample_record 3; sample_record 4] [])
              [("items", JArr [sample_record 3; sample_record 4])]
              [sample_record 3; sample_record 4] _ _ _ _ _)));
      reflexivity.
Defined.

(** C6 at work: the identifier of [.../record/v1/customer/4821] is [4821];
    without the header the result is the empty mapping. *)
Lemma create_204_identifier_witness :
  fst (create_netsuite_record sample_env (always (created_page (Some sample_location)))
         sample_auth "customer" sample_payload (connect tt))
  = Returned (JObj [("id", JStr "4821")]) /\
  fst (create_netsuite_record sample_env (always (created_page None))
         sample_auth "customer" sample_payload (connect tt))
  = Returned (JObj []).
Proof.
  split.
  - refine (proj1 (proj1 (create_204_identifier sample_env
                            (always (created_page (Some sample_location)))
                            sample_auth "customer" sample_payload (connect tt) eq_refl)
                     sample_location eq_refl _)).
    discriminate.
  - exact (proj2 (create_204_identifier sample_env (always (created_page None))
                    sample_auth "customer" sample_payload (connect tt) eq_refl)
             (or_introl eq_refl)).
Defined.

(** C6 as specified fails: a [Location] header with an empty value gives the
    empty mapping, not an identifier; and for a value that ends in a slash
    the identifier is [4821] while the last segment of the value is empty. *)
Lemma create_204_counterexample :
  ~ create_204_as_specified (Some EmptyString)
      (fst (create_netsuite_record sample_env (always (created_page (Some EmptyString)))
              sample_auth "customer" sample_payload (connect tt))) /\
  ~ create_204_as_specified (Some (sample_location ++ "/"))
      (fst (create_netsuite_record sample_env
              (always (created_page (Some (sample_location ++ "/"))))
              sample_auth "customer" sample_payload (connect tt))).
Proof.
  split; intros H; vm_compute in H; discriminate H.
Qed.

(** C7 at work: a 200 response gives its body, a 204 response the empty
    mapping, a 404 response [None]. *)
Lemma update_result_by_status_witness :
  fst (update_netsuite_record sample_env (always updated_page) sample_auth
         "customer" "4821" sample_payload (connect tt))
  = Returned (JObj [("id", JStr "4821"); ("companyName", JStr "Acme")]) /\
  fst (update_netsuite_record sample_env (always (created_page None)) sample_auth
         "customer" "4821" sample_payload (connect tt))
  = Returned (JObj []) /\
  fst (update_netsuite_record sample_env (always (error_page 404)) sample_auth
         "customer" "4821" sample_payload (connect tt))
  = Returned JNull.
Proof.
  split; [|split].
  - exact (proj1 (proj1 (update_result_by_status sample_env (always updated_page)
                           sample_auth "customer" "4821" sample_payload (connect tt))
                    (or_introl eq_refl)) _ eq_refl).
  - exact (proj1 (proj2 (update_result_by_status sample_env (always (created_page None))
                           sample_auth "customer" "4821" sample_payload (connect tt)))
             eq_refl).
  - refine (proj2 (proj2 (update_result_by_status sample_env (always (error_page 404))
                            sample_auth "customer" "4821" sample_payload (connect tt)))
              _ _ _); simpl; lia.
Defined.

(** C7 as specified fails: a 200 response whose body is not JSON makes
    [response.json()] raise, and the exception leaves the call. *)
Lemma update_counterexample :
  fst (update_netsuite_record sample_env (always (html_page 200)) sample_auth
         "customer" "4821" sample_payload (connect tt))
  = Raised JSONDecodeError /\
  ~ update_as_specified (html_page 200)
      (fst (update_netsuite_record sample_env (always (html_page 200)) sample_auth
              "customer" "4821" sample_payload (connect tt))).
Proof.
  split; [reflexivity|].
  intros [v [H _]]. vm_compute in H. discriminate H.
Qed.

(** C8 at work: 204 gives [True], 200 and 404 give [False]. *)
Example delete_by_status :
  fst (delete_netsuite_record sample_env (always (created_page None)) sample_auth
         "customer" "4821" (connect tt)) = Returned true /\
  fst (delete_netsuite_record sample_env (always updated_page) sample_auth
         "customer" "4821" (connect tt)) = Returned false /\
  fst (delete_netsuite_record sample_env (always (error_page 404)) sample_auth
         "customer" "4821" (connect tt)) = Returned false.
Proof. repeat split. Qed.

(** A dataset of 2250 rows read with the default limit: three requests, for
    offsets 0, 1000 and 2000, and all the rows in the result. *)
Example dataset_of_three_pages :
  let out := fetch_all_dataset_records sample_env sample_server 10 sample_auth
               "custdataset_revenue" default_limit (connect long_pages) in
  option_map (fun o => match o with
                       | Returned l => Some (List.length l)
                       | Raised _ => None
                       end) (fst out) = Some (Some 2250%nat) /\
  map fst (log (snd out))
  = map (dataset_request sample_env sample_auth "custdataset_revenue" default_limit)
      [0; 1000; 2000].
Proof. vm_compute. split; reflexivity. Qed.

(** * Further properties *)

(** ** Pages that cannot be read *)

(** Why [read_page] raises: the body is not JSON, or it is JSON but not an
    object, or its [items] cannot be iterated. *)
Lemma read_page_raises (r : Response) (e : exn) :
  read_page r = Raised e ->
  (body r = None /\ e = JSONDecodeError) \/
  (exists v, body r = Some v /\ (forall d, v <> JObj d) /\ e = AttributeError) \/
  (exists d, body r = Some (JObj d) /\ e = TypeError /\
             py_iter (match assoc "items" d with Some v => v | None => JArr [] end)
             = Raised TypeError).
Proof.
  unfold read_page, response_json.
  destruct (body r) as [v|]; simpl.
  - destruct v; simpl; intros H;
      try (right; left; eexists; split; [reflexivity|];
           split; [discriminate|congruence]).
    right; right. exists d.
    destruct (match assoc "items" d with Some v => v | None => JArr [] end);
      simpl in *; try discriminate; inversion H; auto.
  - intros H. left. split; [reflexivity|congruence].
Qed.

Section UnreadablePages.

Variable getenv : string -> option string.
Context {Server : Type}.
Variable serve : Request -> Server -> Response * Server.

(** X1: A page of status 200 that cannot be read ends the call with the exception
    of the reading; the items of the earlier pages are not handed back. *)
Theorem unreadable_page_raises (f : fetcher) (fuel : nat) (auth : OAuth1)
    (s : Server) (pre post : list (Request * Response)) (req : Request)
    (r : Response) (e : exn) :
  log (snd (fetch getenv serve f fuel auth (connect s))) = (pre ++ (req, r) :: post)%list ->
  status_code r = 200 ->
  read_page r = Raised e ->
  post = [] /\
  fst (fetch getenv serve f fuel auth (connect s)) = Some (Raised e) /\
  ((body r = None /\ e = JSONDecodeError) \/
   (exists v, body r = Some v /\ (forall d, v <> JObj d) /\ e = AttributeError) \/
   (exists d, body r = Some (JObj d) /\ e = TypeError)).
Proof.
  intros Hl Hs R. pose proof (fetch_run getenv serve f fuel auth s) as Hrun.
  rewrite Hl in Hrun. apply run_split in Hrun. destruct Hrun as [fuel' [_ Hrun]].
  split; [|split].
  - inversion Hrun; subst; try reflexivity; congruence.
  - inversion Hrun; subst; try congruence.
  - destruct (read_page_raises r e R) as [H|[H|[d [Hb [He _]]]]]; eauto.
Qed.

(** X2: In [run_suiteql_query] a page of status 200 whose body has no [items] key
    counts as an empty page: it ends the call with the items gathered before
    it. *)
Theorem suiteql_page_without_items (fuel : nat) (auth : OAuth1)
    (query_string : string) (s : Server) (pre post : list (Request * Response))
    (req : Request) (r : Response) (d : list (string * json)) :
  log (snd (run_suiteql_query getenv serve fuel auth query_string (connect s)))
  = (pre ++ (req, r) :: post)%list ->
  status_code r = 200 ->
  body r = Some (JObj d) ->
  assoc "items" d = None ->
  post = [] /\
  fst (run_suiteql_query getenv serve fuel auth query_string (connect s))
  = Some (Returned (concat (map page_items (map snd pre)))).
Proof.
  intros Hl Hs Hb Hi.
  pose proof (fetch_run getenv serve (SuiteQL query_string) fuel auth s) as Hrun.
  simpl in Hrun. rewrite Hl in Hrun. apply run_split in Hrun.
  destruct Hrun as [fuel' [_ Hrun]].
  assert (R : read_page r = Returned (JObj d, [])).
  { unfold read_page, response_json. rewrite Hb. simpl. now rewrite Hi. }
  destruct (run_stop _ _ _ _ _ _ _ _ _ _ _ _ Hrun Hs R eq_refl) as [Hpost Hres].
  rewrite app_nil_r in Hres. simpl in Hres. now split.
Qed.

End UnreadablePages.

(** ** The identifier taken from a [Location] header *)

Lemma append_empty (p t : string) : (p ++ t)%string = EmptyString -> t = EmptyString.
Proof. destruct p; simpl; [auto|discriminate]. Qed.

Lemma append_assoc (a b c : string) : ((a ++ b) ++ c = a ++ b ++ c)%string.
Proof. induction a as [|x a IH]; simpl; [reflexivity|now rewrite IH]. Qed.

Lemma str_rstrip_repeat (c : ascii) (s : string) (n : nat) :
  str_rstrip c (s ++ str_repeat c n) = str_rstrip c s.
Proof.
  induction s as [|a s IH]; simpl.
  - induction n as [|n IHn]; simpl; [reflexivity|].
    now rewrite IHn, Ascii.eqb_refl.
  - now rewrite IH.
Qed.

(** What [rstrip] leaves does not end in the stripped character. *)
Lemma str_rstrip_ends (c : ascii) (s : string) : ends_with c (str_rstrip c s) = false.
Proof.
  induction s as [|a s IH]; [reflexivity|].
  simpl. destruct (str_rstrip c s) as [|b t] eqn:E.
  - destruct (Ascii.eqb a c) eqn:Ea; simpl; [reflexivity|exact Ea].
  - exact IH.
Qed.

(** [rstrip] leaves nothing exactly of the strings made of the character. *)
Lemma str_rstrip_empty (c : ascii) (s : string) :
  str_rstrip c s = EmptyString <-> s = str_repeat c (String.length s).
Proof.
  induction s as [|a s IH]; simpl; [tauto|].
  destruct (str_rstrip c s) as [|b t] eqn:E.
  - destruct (Ascii.eqb_spec a c) as [->|Hne].
    + split; [intros _|reflexivity]. f_equal. now apply IH.
    + split; [discriminate|]. intros H. inversion H. contradiction.
  - split; [discriminate|]. intros H. inversion H as [[Ha Hs]].
    apply IH in Hs. discriminate.
Qed.

Lemma ends_with_app (c : ascii) (p t : string) :
  t <> EmptyString -> ends_with c (p ++ t) = ends_with c t.
Proof.
  intros Ht. induction p as [|a p IH]; [reflexivity|].
  simpl. destruct (p ++ t)%string eqn:E; [|exact IH].
  now apply append_empty in E.
Qed.

Lemma ends_with_absent (c : ascii) (t : string) :
  contains c t = false -> ends_with c t = false.
Proof.
  induction t as [|a t IH]; [reflexivity|].
  simpl. intros H. apply orb_false_iff in H. destruct H as [Ha Ht].
  destruct t; [exact Ha|now apply IH].
Qed.

(** A string without the separator is its own single part. *)
Lemma str_split_absent (c : ascii) (t : string) :
  contains c t = false -> str_split c t = [t].
Proof.
  induction t as [|a t IH]; [reflexivity|].
  simpl. intros H. apply orb_false_iff in H. destruct H as [Ha Ht].
  now rewrite Ha, (IH Ht).
Qed.

(** No part of a split contains the separator. *)
Lemma str_split_parts (c : ascii) (s : string) :
  Forall (fun w => contains c w = false) (str_split c s).
Proof.
  induction s as [|a s IH]; simpl.
  - now constructor.
  - destruct (Ascii.eqb a c) eqn:Ea.
    + now constructor.
    + destruct (str_split c s) as [|w ws]; [now constructor; [simpl; rewrite Ea|]|].
      inversion IH; subst. constructor; [|assumption].
      simpl. now rewrite Ea.
Qed.

Lemma last_in_Forall {A : Type} (P : A -> Prop) (l : list A) (d : A) :
  Forall P l -> P d -> P (last l d).
Proof.
  induction l as [|x l IH]; intros Hl Hd; [exact Hd|].
  inversion Hl; subst. destruct l; [assumption|]. now apply IH.
Qed.

Lemma last_app_nonempty {A : Type} (l1 l2 : list A) (d : A) :
  l2 <> [] -> last (l1 ++ l2) d = last l2 d.
Proof.
  intros H. induction l1 as [|x l1 IH]; [reflexivity|].
  simpl. destruct (l1 ++ l2)%list eqn:E; [|exact IH].
  apply app_eq_nil in E. destruct E; contradiction.
Qed.

(** Splitting behind a separator: the parts of what follows come last. *)
Lemma str_split_app (c : ascii) (p t : string) :
  exists ws, str_split c (p ++ String c t) = (ws ++ str_split c t)%list /\ ws <> [].
Proof.
  induction p as [|a p [ws [IH Hws]]]; simpl.
  - rewrite Ascii.eqb_refl. exists [EmptyString]. split; [reflexivity|discriminate].
  - destruct (Ascii.eqb a c).
    + exists (EmptyString :: ws). rewrite IH. split; [reflexivity|discriminate].
    + rewrite IH. destruct ws as [|w ws]; [contradiction|].
      exists (String a w :: ws). split; [reflexivity|discriminate].
Qed.

(** The last segment of a string that does not end in the separator is not
    empty. *)
Lemma last_segment_nonempty (c : ascii) (t : string) :
  t <> EmptyString -> ends_with c t = false ->
  last (str_split c t) EmptyString <> EmptyString.
Proof.
  induction t as [|a t IH]; intros Hne He; [contradiction|].
  destruct t as [|b t].
  - simpl in *. rewrite He. simpl. discriminate.
  - assert (IH' : last (str_split c (String b t)) EmptyString <> EmptyString)
      by (apply IH; [discriminate|exact He]).
    change (str_split c (String a (String b t)))
      with (if Ascii.eqb a c then EmptyString :: str_split c (String b t)
            else match str_split c (String b t) with
                 | [] => [String a EmptyString]
                 | w :: ws => String a w :: ws
                 end).
    pose proof (str_split_nonempty c (String b t)) as Hn.
    destruct (str_split c (String b t)) as [|w ws]; [contradiction|].
    destruct (Ascii.eqb a c).
    + exact IH'.
    + destruct ws; [discriminate|exact IH'].
Qed.

(** The identifier written behind the last slash of a location is read back,
    whatever the number of slashes that follow it. *)
Lemma last_segment_roundtrip (base id : string) (n : nat) :
  id <> EmptyString ->
  contains "/" id = false ->
  last_segment (str_rstrip "/" (base ++ "/" ++ id ++ str_repeat "/" n)) = id.
Proof.
  intros Hne Hno. unfold last_segment.
  replace (base ++ "/" ++ id ++ str_repeat "/" n)%string
    with ((base ++ "/" ++ id) ++ str_repeat "/" n)%string
    by (now rewrite !append_assoc).
  rewrite str_rstrip_repeat, str_rstrip_same.
  - destruct (str_split_app "/" base id) as [ws [E Hws]].
    change (base ++ "/" ++ id)%string with (base ++ String "/" id)%string.
    rewrite E, (str_split_absent _ _ Hno).
    now rewrite last_app_nonempty by discriminate.
  - change (base ++ "/" ++ id)%string with (base ++ String "/" id)%string.
    rewrite (ends_with_app "/" base (String "/" id)) by discriminate.
    apply ends_with_absent in Hno. destruct id; [contradiction|exact Hno].
Qed.

(** ** [create_netsuite_record], status by status *)

Section CreateFacts.

Variable getenv : string -> option string.
Context {Server : Type}.
Variable serve : Request -> Server -> Response * Server.

Lemma create_netsuite_record_result (auth : OAuth1) (endpoint : string)
    (payload : json) (net : network Server) :
  fst (create_netsuite_record getenv serve auth endpoint payload net)
  = create_result
      (fst (send serve (post_request (record_list_url getenv endpoint) payload [] auth) net)).
Proof.
  unfold create_netsuite_record, record_list_url.
  now destruct (send serve _ net).
Qed.

Lemma create_result_at_location (response : Response) (base id : string) (n : nat) :
  status_code response = 204 ->
  headers response "Location" = Some (base ++ "/" ++ id ++ str_repeat "/" n)%string ->
  id <> EmptyString ->
  contains "/" id = false ->
  create_result response = Returned (JObj [("id", JStr id)]).
Proof.
  intros Hs Hloc Hne Hno. unfold create_result. rewrite Hs, Hloc. simpl.
  destruct (String.eqb_spec (base ++ String "/" (id ++ str_repeat "/" n)) EmptyString)
    as [E|_].
  - apply append_empty in E. discriminate.
  - simpl. rewrite py_last_split. simpl.
    pose proof (last_segment_roundtrip base id n Hne Hno) as H.
    unfold last_segment in H. simpl in H. now rewrite H.
Qed.

(** X3: On a 204 response whose [Location] is [base/id] followed by any number of
    slashes, [id] being non-empty and free of slashes, the result is
    [{"id": id}]. *)
Theorem create_reads_identifier (auth : OAuth1) (endpoint : string) (payload : json)
    (net : network Server) (base id : string) (n : nat) :
  let response :=
    fst (send serve (post_request (record_list_url getenv endpoint) payload [] auth) net) in
  status_code response = 204 ->
  headers response "Location" = Some (base ++ "/" ++ id ++ str_repeat "/" n)%string ->
  id <> EmptyString ->
  contains "/" id = false ->
  fst (create_netsuite_record getenv serve auth endpoint payload net)
  = Returned (JObj [("id", JStr id)]).
Proof.
  intros response Hs Hloc Hne Hno. rewrite create_netsuite_record_result.
  now apply (create_result_at_location _ base id n).
Qed.

(** X4: On a 204 response with a non-empty [Location], the identifier in the
    result never contains a slash, and it is empty exactly when the location
    is made of slashes only. *)
Theorem create_identifier_shape (auth : OAuth1) (endpoint : string) (payload : json)
    (net : network Server) (location : string) :
  let response :=
    fst (send serve (post_request (record_list_url getenv endpoint) payload [] auth) net) in
  status_code response = 204 ->
  headers response "Location" = Some location ->
  location <> EmptyString ->
  exists id,
    fst (create_netsuite_record getenv serve auth endpoint payload net)
    = Returned (JObj [("id", JStr id)]) /\
    contains "/" id = false /\
    (id = EmptyString <-> location = str_repeat "/" (String.length location)).
Proof.
  intros response Hs Hloc Hne. rewrite create_netsuite_record_result.
  fold response. unfold create_result. rewrite Hs, Hloc. simpl.
  apply String.eqb_neq in Hne. rewrite Hne. simpl. rewrite py_last_split. simpl.
  eexists. split; [reflexivity|]. split.
  - apply (last_in_Forall (fun w => contains "/" w = false));
      [apply str_split_parts|reflexivity].
  - rewrite <- str_rstrip_empty. split.
    + intros Hid. destruct (str_rstrip "/" location) as [|a t] eqn:E; [reflexivity|].
      exfalso. revert Hid. apply last_segment_nonempty; [discriminate|].
      rewrite <- E. apply str_rstrip_ends.
    + now intros ->.
Qed.

(** X5: Outside the statuses 200 and 201 [create_netsuite_record] never raises
    (indexing the split location cannot fail): it returns [None] unless the
    status is 204, and for 204 the empty mapping or a mapping with the one
    key [id]. *)
Theorem create_raises_only_on_200_201 (auth : OAuth1) (endpoint : string)
    (payload : json) (net : network Server) :
  let response :=
    fst (send serve (post_request (record_list_url getenv endpoint) payload [] auth) net) in
  status_code response <> 200 ->
  status_code response <> 201 ->
  exists v,
    fst (create_netsuite_record getenv serve auth endpoint payload net) = Returned v /\
    (status_code response <> 204 -> v = JNull) /\
    (status_code response = 204 ->
     v = JObj [] \/ exists id, v = JObj [("id", JStr id)]).
Proof.
  intros response H0 H1. rewrite create_netsuite_record_result.
  fold response. unfold create_result.
  apply Z.eqb_neq in H0, H1. rewrite H0, H1. simpl.
  destruct (Z.eqb_spec (status_code response) 204) as [H4|H4].
  - destruct (headers response "Location") as [location|].
    + rewrite py_last_split. cbn [py_bool bind].
      destruct (String.eqb location EmptyString); cbn [negb].
      * eexists. split; [reflexivity|]. split; [contradiction|]. now left.
      * eexists. split; [reflexivity|].
        split; [contradiction|]. intros _. right. eauto.
    + eexists. split; [reflexivity|]. split; [contradiction|]. now left.
  - eexists. split; [reflexivity|]. split; [reflexivity|contradiction].
Qed.

(** X6: On a 200 or 201 response [create_netsuite_record] hands back the body
    when it is a JSON object, with or without an [id] in it; a JSON body that
    is not an object makes the lookup of [id] raise, and a body that is not
    JSON makes the decoding raise. *)
Theorem create_on_200_201 (auth : OAuth1) (endpoint : string) (payload : json)
    (net : network Server) :
  let response :=
    fst (send serve (post_request (record_list_url getenv endpoint) payload [] auth) net) in
  let result := fst (create_netsuite_record getenv serve auth endpoint payload net) in
  status_code response = 200 \/ status_code response = 201 ->
  (forall d, body response = Some (JObj d) -> result = Returned (JObj d)) /\
  (forall v, body response = Some v -> (forall d, v <> JObj d) ->
             result = Raised AttributeError) /\
  (body response = None -> result = Raised JSONDecodeError).
Proof.
  intros response result Hs. subst result. rewrite create_netsuite_record_result.
  fold response. unfold create_result, response_json.
  assert (Ht : (status_code response =? 200) || (status_code response =? 201) = true)
    by (destruct Hs as [-> | ->]; reflexivity).
  rewrite Ht. split; [|split].
  - now intros d ->.
  - intros v -> Hv. destruct v; try reflexivity. now destruct (Hv d).
  - now intros ->.
Qed.

End CreateFacts.

(** ** Reading the offset back from a request *)

Lemma uint_string_no_eq (d : Decimal.uint) :
  contains "=" (NilEmpty.string_of_uint d) = false.
Proof. induction d; simpl; auto. Qed.

Lemma uint_string_no_slash (d : Decimal.uint) :
  contains "/" (NilEmpty.string_of_uint d) = false.
Proof. induction d; simpl; auto. Qed.

(** A rendered integer holds digits and at most a sign. *)
Lemma str_int_no_eq (z : Z) : contains "=" (str_int z) = false.
Proof.
  unfold str_int, NilZero.string_of_int, NilZero.string_of_uint.
  destruct (Z.to_int z) as [d|d]; destruct d; simpl; auto using uint_string_no_eq.
Qed.

Lemma str_int_no_slash (z : Z) : contains "/" (str_int z) = false.
Proof.
  unfold str_int, NilZero.string_of_int, NilZero.string_of_uint.
  destruct (Z.to_int z) as [d|d]; destruct d; simpl; auto using uint_string_no_slash.
Qed.

Lemma str_int_nonempty (z : Z) : str_int z <> EmptyString.
Proof.
  unfold str_int, NilZero.string_of_int, NilZero.string_of_uint.
  destruct (Z.to_int z) as [d|d]; destruct d; discriminate.
Qed.

(** Parsing a rendered integer gives the integer. *)
Lemma int_of_str_int (z : Z) :
  option_map Z.of_int (NilZero.int_of_string (str_int z)) = Some z.
Proof.
  assert (Hnil : Z.to_int z <> Decimal.Pos Decimal.Nil /\
                 Z.to_int z <> Decimal.Neg Decimal.Nil).
  { pose proof (DecimalZ.to_of (Z.to_int z)) as H.
    rewrite DecimalZ.of_to in H.
    split; intros E; rewrite E in H; discriminate. }
  unfold str_int. rewrite NilZero.isi by tauto. simpl.
  now rewrite DecimalZ.of_to.
Qed.

Lemma behind_app (c : ascii) (a u t : string) :
  (exists p, u = p ++ String c t)%string ->
  (exists p, a ++ u = p ++ String c t)%string.
Proof. intros [p ->]. exists (a ++ p)%string. now rewrite append_assoc. Qed.

Lemma last_split_behind (c : ascii) (s t : string) :
  (exists p, s = p ++ String c t)%string ->
  contains c t = false ->
  last (str_split c s) EmptyString = t.
Proof.
  intros [p ->] Hno. destruct (str_split_app c p t) as [ws [E _]].
  rewrite E, (str_split_absent _ _ Hno).
  now rewrite last_app_nonempty by discriminate.
Qed.

Lemma offset_read_back (getenv : string -> option string) (f : fetcher)
    (auth : OAuth1) (offset : Z) :
  offset_of (request_of getenv f auth offset) = Some offset.
Proof.
  unfold offset_of.
  rewrite (last_split_behind "=" _ (str_int offset)).
  - apply int_of_str_int.
  - destruct f; unfold request_of, record_list_request, dataset_request,
      suiteql_request, get_request, post_request; cbn [url].
    + apply behind_app. now exists "?offset".
    + do 6 apply behind_app. now exists "&offset".
    + do 4 apply behind_app. now exists "&offset".
  - apply str_int_no_eq.
Qed.

(** X7: The offset written into the URL of a request is read back from it as the
    decimal number behind the last [=], for each of the three fetchers and
    every integer; so the requests for two offsets are equal only when the
    offsets are. *)
Theorem request_offset_roundtrip (getenv : string -> option string) (f : fetcher)
    (auth : OAuth1) (offset : Z) :
  offset_of (request_of getenv f auth offset) = Some offset /\
  (forall offset',
     request_of getenv f auth offset = request_of getenv f auth offset' ->
     offset = offset').
Proof.
  split; [apply offset_read_back|].
  intros offset' E. apply (f_equal offset_of) in E.
  rewrite !offset_read_back in E. now inversion E.
Qed.

(** ** The fetchers against a server that pages a table *)

Lemma firstn_step {A : Type} (l : list A) (k n : nat) :
  (firstn k l ++ firstn n (skipn k l))%list = firstn (k + n) l.
Proof.
  revert l. induction k as [|k IH]; intros l; [reflexivity|].
  destruct l as [|x l]; simpl.
  - now rewrite firstn_nil.
  - now rewrite IH.
Qed.

Lemma read_items_page (xs : list json) (fields : list (string * json)) :
  read_page (items_page xs fields) = Returned (JObj (("items", JArr xs) :: fields), xs).
Proof. reflexivity. Qed.

Section TableRuns.

Variable page_size : nat.
Variable rows : list json.
Variable request_at : Z -> Request.
Variable more : json -> list json -> bool.
Variable advance : Z -> list json -> Z.

Let page_at (k : nat) : list json := firstn page_size (skipn k rows).
Let flag_at (k : nat) : list (string * json) :=
  [("hasMore", JBool (k + page_size <? List.length rows)%nat)].
Let data_at (k : nat) : json := JObj (("items", JArr (page_at k)) :: flag_at k).

Hypothesis offset_read : forall o, offset_of (request_at o) = Some o.

(** The answer to the request for the position [k]. *)
Lemma table_send (k : nat) (net : network unit) :
  send (table_server page_size rows) (request_at (Z.of_nat k)) net
  = (items_page (page_at k) (flag_at k),
     {| server := tt;
        log := (log net
                ++ [(request_at (Z.of_nat k), items_page (page_at k) (flag_at k))])%list |}).
Proof.
  unfold send, table_server. rewrite offset_read.
  destruct (Z.ltb_spec (Z.of_nat k) 0) as [H|_]; [lia|].
  now rewrite Nat2Z.id.
Qed.

Hypothesis positive : (0 < page_size)%nat.
Hypothesis more_full :
  forall k, more (data_at k) (page_at k) = true ->
            (k + page_size <= List.length rows)%nat /\
            advance (Z.of_nat k) (page_at k) = Z.of_nat (k + page_size).
Hypothesis stop_tail :
  forall k, more (data_at k) (page_at k) = false ->
            (List.length rows <= k + page_size)%nat.

(** Entered at position [k] with the first [k] rows, the loop comes back
    with all the rows. *)
Lemma paginate_table (fuel : nat) :
  forall (k : nat) (net : network unit),
  (k <= List.length rows)%nat ->
  (List.length rows - k < fuel)%nat ->
  fst (paginate (table_server page_size rows) request_at more advance fuel
         (firstn k rows) (Z.of_nat k) net)
  = Some (Returned rows).
Proof.
  induction fuel as [|fuel IH]; intros k net Hk Hf; [lia|].
  cbn [paginate]. rewrite table_send. unfold page.
  rewrite read_items_page. cbn [status_code items_page Z.eqb Pos.eqb].
  fold (data_at k). destruct (more (data_at k) (page_at k)) eqn:M.
  - destruct (more_full k M) as [Hle Hadv].
    rewrite Hadv. unfold page_at. rewrite firstn_step.
    apply IH; lia.
  - apply stop_tail in M. cbn [fst]. unfold page_at.
    rewrite (firstn_all2 (skipn k rows)) by (rewrite length_skipn; lia).
    now rewrite firstn_skipn.
Qed.

End TableRuns.

(** X8: Against a table server whose page size fits the fetcher, each of the
    three fetchers returns the whole table, row for row, as soon as the fuel
    exceeds the number of rows. *)
Theorem fetch_reads_whole_table (getenv : string -> option string) (f : fetcher)
    (auth : OAuth1) (page_size : nat) (rows : list json) (fuel : nat) :
  page_size_fits f page_size ->
  (List.length rows < fuel)%nat ->
  fst (fetch getenv (table_server page_size rows) f fuel auth (connect tt))
  = Some (Returned rows).
Proof.
  intros Hfit Hfuel. rewrite fetch_paginate.
  apply (paginate_table page_size rows (request_of getenv f auth) (more_of f)
           (advance_of f) (offset_read_back getenv f auth)) with (k := 0%nat);
    try lia.
  - destruct f; simpl in Hfit; lia.
  - intros k M. destruct f as [endpoint|dataset_id limit|query_string];
      cbn [more_of advance_of has_more py_get assoc String.eqb Ascii.eqb Bool.eqb
           py_bool] in *.
    + apply Nat.ltb_lt in M. split; [lia|].
      rewrite length_firstn, length_skipn. simpl in Hfit. lia.
    + apply Nat.ltb_lt in M. destruct Hfit as [_ ->]. split; [lia|]. lia.
    + simpl in Hfit. subst page_size.
      apply negb_true_iff, Z.ltb_ge in M.
      rewrite length_firstn, length_skipn in M. unfold suiteql_limit in *.
      split; lia.
  - intros k M. destruct f as [endpoint|dataset_id limit|query_string];
      cbn [more_of advance_of has_more py_get assoc String.eqb Ascii.eqb Bool.eqb
           py_bool] in *.
    + apply Nat.ltb_ge in M. lia.
    + apply Nat.ltb_ge in M. lia.
    + simpl in Hfit. subst page_size.
      apply negb_false_iff, Z.ltb_lt in M.
      rewrite length_firstn, length_skipn in M. unfold suiteql_limit in *. lia.
Qed.

(** X9: A table server whose pages are shorter than 1000 rows cuts a query short:
    [run_suiteql_query] sends one request and returns the first page only. *)
Theorem suiteql_truncates_to_small_page (getenv : string -> option string)
    (auth : OAuth1) (query_string : string) (page_size : nat) (rows : list json)
    (fuel : nat) :
  (page_size < 1000)%nat ->
  (0 < fuel)%nat ->
  let out := run_suiteql_query getenv (table_server page_size rows) fuel auth
               query_string (connect tt) in
  fst out = Some (Returned (firstn page_size rows)) /\
  List.length (log (snd out)) = 1%nat.
Proof.
  intros Hps Hfuel out. subst out.
  change (run_suiteql_query getenv (table_server page_size rows) fuel auth
            query_string (connect tt))
    with (fetch getenv (table_server page_size rows) (SuiteQL query_string) fuel
            auth (connect tt)).
  rewrite fetch_paginate. destruct fuel as [|fuel]; [lia|].
  cbn [paginate].
  rewrite (table_send page_size rows _ (offset_read_back getenv _ auth) 0%nat).
  unfold page. rewrite read_items_page.
  cbn [status_code items_page Z.eqb Pos.eqb more_of skipn].
  assert (Hshort : (Z.of_nat (List.length (firstn page_size rows)) <? suiteql_limit) = true).
  { apply Z.ltb_lt. rewrite length_firstn. unfold suiteql_limit. lia. }
  rewrite Hshort. split; reflexivity.
Qed.

(** The dataset loop against a table server with pages shorter than the
    limit: past the first page the offset is ahead of the rows gathered. *)
Lemma dataset_lossy_loop (getenv : string -> option string) (auth : OAuth1)
    (dataset_id : string) (limit : Z) (page_size : nat) (rows : list json) :
  Z.of_nat page_size < limit ->
  (page_size < List.length rows)%nat ->
  forall (fuel k : nat) (acc : list json) (net : network unit),
  (acc = [] /\ k = 0%nat) \/
  (List.length acc + (Z.to_nat limit - page_size) <= k /\
   List.length acc < List.length rows)%nat ->
  (List.length rows - k < fuel)%nat ->
  exists l,
    fst (paginate (table_server page_size rows)
           (request_of getenv (Dataset dataset_id limit) auth)
           (more_of (Dataset dataset_id limit)) (advance_of (Dataset dataset_id limit))
           fuel acc (Z.of_nat k) net)
    = Some (Returned l) /\
    (List.length l < List.length rows)%nat.
Proof.
  intros Hcap Hrows.
  induction fuel as [|fuel IH]; intros k acc net Hinv Hf; [lia|].
  cbn [paginate].
  rewrite (table_send page_size rows _
             (offset_read_back getenv (Dataset dataset_id limit) auth)).
  unfold page. rewrite read_items_page.
  cbn [status_code items_page Z.eqb Pos.eqb more_of advance_of has_more py_get assoc
       String.eqb Ascii.eqb Bool.eqb py_bool].
  destruct (Nat.ltb_spec (k + page_size) (List.length rows)) as [Hlt|Hge].
  - replace (Z.of_nat k + limit) with (Z.of_nat (k + Z.to_nat limit)) by lia.
    apply IH; [|lia]. right. rewrite length_app, length_firstn, length_skipn.
    destruct Hinv as [[-> ->]|[H1 H2]]; simpl; lia.
  - eexists. split; [reflexivity|].
    rewrite length_app, length_firstn, length_skipn.
    destruct Hinv as [[-> ->]|[H1 H2]]; simpl in *; lia.
Qed.

(** X10: A table server that caps its pages below the caller's limit makes
    [fetch_all_dataset_records] lose rows: the offset moves on by the limit
    while fewer rows came, so the call returns fewer rows than the table
    holds. *)
Theorem dataset_loses_rows_under_cap (getenv : string -> option string)
    (auth : OAuth1) (dataset_id : string) (limit : Z) (page_size : nat)
    (rows : list json) (fuel : nat) :
  Z.of_nat page_size < limit ->
  (page_size < List.length rows)%nat ->
  (List.length rows < fuel)%nat ->
  exists l,
    fst (fetch_all_dataset_records getenv (table_server page_size rows) fuel auth
           dataset_id limit (connect tt))
    = Some (Returned l) /\
    (List.length l < List.length rows)%nat.
Proof.
  intros Hcap Hrows Hfuel.
  change (fetch_all_dataset_records getenv (table_server page_size rows) fuel auth
            dataset_id limit (connect tt))
    with (fetch getenv (table_server page_size rows) (Dataset dataset_id limit) fuel
            auth (connect tt)).
  rewrite fetch_paginate.
  apply (dataset_lossy_loop getenv auth dataset_id limit page_size rows Hcap Hrows
           fuel 0%nat [] (connect tt)); [now left|lia].
Qed.

(** ** The record operations against a server that keeps records *)

Lemma assoc_remove_key (key : string) (d : list (string * json)) :
  assoc key (remove_key key d) = None.
Proof.
  induction d as [|[k v] d IH]; [reflexivity|].
  simpl. destruct (String.eqb key k) eqn:E; simpl; [exact IH|].
  now rewrite E.
Qed.

Lemma append_empty_r (s : string) : (s ++ EmptyString)%string = s.
Proof. induction s as [|a s IH]; simpl; [reflexivity|now rewrite IH]. Qed.

Section StoreFacts.

Variable getenv : string -> option string.

(** The URL under which [create_netsuite_record] finds the new record
    announced is the one the other operations build from the identifier. *)
Lemma record_url_assoc (endpoint id : string) :
  (record_list_url getenv endpoint ++ "/" ++ id
   = record_base_url getenv ++ "/" ++ endpoint ++ "/" ++ id)%string.
Proof. unfold record_list_url. now rewrite !append_assoc. Qed.

Lemma create_on_store (auth : OAuth1) (endpoint : string) (payload : json)
    (st : store) (lg : list (Request * Response)) :
  let id := str_int (next_id st) in
  let location := (record_base_url getenv ++ "/" ++ endpoint ++ "/" ++ id)%string in
  fst (create_netsuite_record getenv record_server auth endpoint payload
         {| server := st; log := lg |})
  = Returned (JObj [("id", JStr id)]) /\
  server (snd (create_netsuite_record getenv record_server auth endpoint payload
                 {| server := st; log := lg |}))
  = {| next_id := next_id st + 1; records := (location, payload) :: records st |}.
Proof.
  intros id location. unfold create_netsuite_record, send.
  cbn [server post_request record_server method json_payload url fst snd].
  fold (record_list_url getenv endpoint). fold id.
  rewrite record_url_assoc. fold location. split; [|reflexivity].
  apply (create_result_at_location _
           (record_base_url getenv ++ "/" ++ endpoint) id 0).
  - reflexivity.
  - cbn [headers created_page str_repeat]. rewrite String.eqb_refl, append_empty_r.
    unfold location. now rewrite !append_assoc.
  - apply str_int_nonempty.
  - apply str_int_no_slash.
Qed.

(** X11: A record that was created is fetched back unchanged under the identifier
    the creation returned. *)
Theorem create_then_fetch (auth : OAuth1) (endpoint : string) (payload : json)
    (st : store) (lg : list (Request * Response)) :
  let created := create_netsuite_record getenv record_server auth endpoint payload
                   {| server := st; log := lg |} in
  let id := str_int (next_id st) in
  fst created = Returned (JObj [("id", JStr id)]) /\
  fst (fetch_record_by_id getenv record_server auth endpoint id (snd created))
  = Returned payload.
Proof.
  intros created id. subst created.
  destruct (create_on_store auth endpoint payload st lg) as [Hid Hst].
  fold id in Hid, Hst. split; [exact Hid|].
  unfold fetch_record_by_id, send. rewrite Hst.
  cbn [get_request record_server method url records].
  cbn [assoc]. rewrite String.eqb_refl. reflexivity.
Qed.


(** X13: Deleting a created record returns [True]; after that the record is
    fetched as [None], and deleting or updating it again fails with [False]
    and [None]. *)
Theorem delete_then_gone (auth : OAuth1) (endpoint : string) (payload changes : json)
    (st : store) (lg : list (Request * Response)) :
  let created := create_netsuite_record getenv record_server auth endpoint payload
                   {| server := st; log := lg |} in
  let id := str_int (next_id st) in
  let deleted := delete_netsuite_record getenv record_server auth endpoint id
                   (snd created) in
  fst deleted = Returned true /\
  fst (fetch_record_by_id getenv record_server auth endpoint id (snd deleted))
  = Returned JNull /\
  fst (delete_netsuite_record getenv record_server auth endpoint id (snd deleted))
  = Returned false /\
  fst (update_netsuite_record getenv record_server auth endpoint id changes (snd deleted))
  = Returned JNull.
Proof.
  intros created id deleted. subst created deleted.
  destruct (create_on_store auth endpoint payload st lg) as [_ Hst].
  fold id in Hst.
  unfold delete_netsuite_record, fetch_record_by_id, update_netsuite_record, send.
  rewrite Hst.
  cbn [delete_request get_request patch_request record_server method url records
       json_payload].
  cbn [assoc]. rewrite String.eqb_refl.
  cbn [server fst snd records]. rewrite assoc_remove_key.
  repeat split; reflexivity.
Qed.

End StoreFacts.

(** ** The two loops that read [hasMore] *)

(** X14: On every response the loop bodies of [fetch_all_netsuite_records] and
    [fetch_all_dataset_records] end the same way with the same items: the
    defaults [False] and [None] for a missing [hasMore] make no difference,
    and the two differ in the next offset only. *)
Theorem record_list_and_dataset_same_step (r : Response) (all_items : list json)
    (offset offset' limit : Z) :
  same_step (record_list_page r all_items offset)
            (dataset_page r limit all_items offset').
Proof.
  unfold record_list_page, dataset_page, response_json, list_extend, same_step.
  destruct (status_code r =? 200); simpl; [|reflexivity].
  destruct (body r) as [[]|]; simpl; try reflexivity.
  destruct (py_iter _) as [xs|e] eqn:E; simpl; [|reflexivity].
  rewrite (py_len_iter _ _ E).
  destruct (assoc "hasMore" d) as [v|]; simpl; [|reflexivity].
  now destruct (py_bool v).
Qed.

(** ** What the requests of a fetcher look like *)

Section RequestShape.

Variable getenv : string -> option string.
Context {Server : Type}.
Variable serve : Request -> Server -> Response * Server.

(** X15: Every request of a fetcher carries the caller's credentials and has the
    fetcher's method, body and headers: GET without a body for the record
    list and the dataset, POST with the query under [q] and the header
    [Prefer: transient] for SuiteQL. *)
Theorem fetch_requests_shape (f : fetcher) (fuel : nat) (oauth : OAuth1) (s : Server) :
  Forall (fun req => auth req = oauth /\
                     method req = method_of f /\
                     json_payload req = payload_of f /\
                     req_headers req = headers_of f)
         (map fst (log (snd (fetch getenv serve f fuel oauth (connect s))))).
Proof.
  apply Forall_forall. intros req Hin.
  apply In_nth_error in Hin. destruct Hin as [k Hk].
  apply fetch_request in Hk. rewrite Hk.
  destruct f; repeat split.
Qed.

(** X16: [run_suiteql_query] never sends the same request twice, and neither does
    [fetch_all_dataset_records] when its limit is not zero. *)
Theorem fixed_step_requests_differ (fuel : nat) (oauth : OAuth1) (s : Server) :
  (forall dataset_id limit,
     limit <> 0 ->
     NoDup (map fst (log (snd (fetch_all_dataset_records getenv serve fuel oauth
                                 dataset_id limit (connect s)))))) /\
  (forall query_string,
     NoDup (map fst (log (snd (run_suiteql_query getenv serve fuel oauth query_string
                                 (connect s)))))).
Proof.
  assert (H : forall f step,
             step <> 0 ->
             (forall off xs, advance_of f off xs = off + step) ->
             NoDup (map fst (log (snd (fetch getenv serve f fuel oauth (connect s)))))).
  { intros f step Hstep Hadv. apply NoDup_nth_error. intros i j Hi E.
    destruct (nth_error _ i) as [req|] eqn:Ei;
      [|apply nth_error_None in Ei; lia].
    symmetry in E.
    assert (Hj : (j < List.length
                     (map fst (log (snd (fetch getenv serve f fuel oauth (connect s))))))%nat)
      by (apply nth_error_Some; congruence).
    apply fetch_request in Ei, E.
    rewrite (offset_after_fixed step) in Ei, E by exact Hadv.
    rewrite Ei in E. apply request_of_inj in E.
    rewrite length_map in Hi, Hj.
    rewrite !firstn_length_le in E by (rewrite length_map; lia).
    nia. }
  split.
  - intros dataset_id limit Hl.
    apply (H (Dataset dataset_id limit) limit Hl). reflexivity.
  - intros query_string.
    apply (H (SuiteQL query_string) suiteql_limit); [discriminate|reflexivity].
Qed.

End RequestShape.

(** ** The further properties at work *)

(** After one good page a 200 response that is not JSON makes the record-list
    fetch raise; the record of the first page is not returned. *)
Lemma unreadable_page_raises_witness :
  fst (fetch sample_env sample_server (RecordList "customer") 5 sample_auth
         (connect [items_page [sample_record 1] flag_true; html_page 200]))
  = Some (Raised JSONDecodeError).
Proof.
  refine (proj1 (proj2 (unreadable_page_raises sample_env sample_server
            (RecordList "customer") 5 sample_auth
            [items_page [sample_record 1] flag_true; html_page 200]
            [(record_list_request sample_env sample_auth "customer" 0,
              items_page [sample_record 1] flag_true)]
            [] (record_list_request sample_env sample_auth "customer" 1)
            (html_page 200) JSONDecodeError _ _ _)));
    reflexivity.
Defined.

(** After a full page, a page without [items] ends the query with the
    thousand rows of the full page. *)
Lemma suiteql_page_without_items_witness :
  fst (run_suiteql_query sample_env sample_server 5 sample_auth sample_query
         (connect [full_page; bare_page; full_page]))
  = Some (Returned (repeat (sample_record 0) 1000)).
Proof.
  refine (proj2 (suiteql_page_without_items sample_env sample_server 5 sample_auth
                   sample_query [full_page; bare_page; full_page]
                   [(suiteql_request sample_env sample_auth sample_query 0, full_page)]
                   [] (suiteql_request sample_env sample_auth sample_query 1000)
                   bare_page [("count", JInt 0)] _ _ _ _));
    reflexivity.
Defined.

(** The identifier 4821 is read from a location with two trailing slashes. *)
Lemma create_reads_identifier_witness :
  fst (create_netsuite_record sample_env
         (always (created_page (Some (sample_location ++ "//"))))
         sample_auth "customer" sample_payload (connect tt))
  = Returned (JObj [("id", JStr "4821")]).
Proof.
  refine (create_reads_identifier sample_env
            (always (created_page (Some (sample_location ++ "//"))))
            sample_auth "customer" sample_payload (connect tt)
            "https://123456.suitetalk.api.netsuite.com/services/rest/record/v1/customer"
            "4821" 2 _ _ _ _);
    [reflexivity|reflexivity|discriminate|reflexivity].
Defined.

(** For a location of two slashes the identifier is the empty string. *)
Lemma create_identifier_shape_witness :
  exists id,
    fst (create_netsuite_record sample_env (always (created_page (Some "//")))
           sample_auth "customer" sample_payload (connect tt))
    = Returned (JObj [("id", JStr id)]) /\
    contains "/" id = false /\
    (id = EmptyString <-> "//" = str_repeat "/" (String.length "//")).
Proof.
  refine (create_identifier_shape sample_env (always (created_page (Some "//")))
            sample_auth "customer" sample_payload (connect tt) "//" _ _ _);
    [reflexivity|reflexivity|discriminate].
Defined.

(** A 404 on a create gives [None]. *)
Lemma create_raises_only_on_200_201_witness :
  exists v,
    fst (create_netsuite_record sample_env (always (error_page 404)) sample_auth
           "customer" sample_payload (connect tt))
    = Returned v /\
    (status_code (error_page 404) <> 204 -> v = JNull) /\
    (status_code (error_page 404) = 204 ->
     v = JObj [] \/ exists id, v = JObj [("id", JStr id)]).
Proof.
  refine (create_raises_only_on_200_201 sample_env (always (error_page 404)) sample_auth
            "customer" sample_payload (connect tt) _ _);
    simpl; lia.
Defined.

(** A 200 on a create gives the body, here a record without further ado; a
    200 whose body is a JSON list raises. *)
Lemma create_on_200_201_witness :
  fst (create_netsuite_record sample_env (always updated_page) sample_auth
         "customer" sample_payload (connect tt))
  = Returned (JObj [("id", JStr "4821"); ("companyName", JStr "Acme")]) /\
  fst (create_netsuite_record sample_env (always (found_page (JArr []))) sample_auth
         "customer" sample_payload (connect tt))
  = Raised AttributeError.
Proof.
  split.
  - exact (proj1 (create_on_200_201 sample_env (always updated_page) sample_auth
                    "customer" sample_payload (connect tt) (or_introl eq_refl))
             _ eq_refl).
  - refine (proj1 (proj2 (create_on_200_201 sample_env (always (found_page (JArr [])))
                            sample_auth "customer" sample_payload (connect tt)
                            (or_introl eq_refl)))
              (JArr []) eq_refl _).
    discriminate.
Defined.

(** A table of five rows served two at a time is read whole by the record
    list and by the dataset with limit 2, and served a thousand at a time by
    the query. *)
Lemma fetch_reads_whole_table_witness :
  fst (fetch sample_env (table_server 2 sample_rows) (RecordList "customer") 6
         sample_auth (connect tt))
  = Some (Returned sample_rows) /\
  fst (fetch sample_env (table_server 2 sample_rows) (Dataset "custdataset_revenue" 2)
         6 sample_auth (connect tt))
  = Some (Returned sample_rows) /\
  fst (fetch sample_env (table_server 1000 sample_rows) (SuiteQL sample_query) 6
         sample_auth (connect tt))
  = Some (Returned sample_rows).
Proof.
  split; [|split].
  - apply (fetch_reads_whole_table sample_env (RecordList "customer") sample_auth 2
             sample_rows 6); simpl; lia.
  - apply (fetch_reads_whole_table sample_env (Dataset "custdataset_revenue" 2)
             sample_auth 2 sample_rows 6); simpl; [split; [lia|reflexivity]|lia].
  - apply (fetch_reads_whole_table sample_env (SuiteQL sample_query) sample_auth 1000
             sample_rows 6); simpl; [reflexivity|lia].
Defined.

(** Served two rows at a time, the query returns two of the five rows. *)
Lemma suiteql_truncates_to_small_page_witness :
  fst (run_suiteql_query sample_env (table_server 2 sample_rows) 6 sample_auth
         sample_query (connect tt))
  = Some (Returned [sample_record 1; sample_record 2]).
Proof.
  refine (proj1 (suiteql_truncates_to_small_page sample_env sample_auth sample_query
                   2 sample_rows 6 _ _)); lia.
Defined.

(** Served two rows at a time and asked with limit 3, the dataset fetch
    returns fewer than the five rows. *)
Lemma dataset_loses_rows_under_cap_witness :
  exists l,
    fst (fetch_all_dataset_records sample_env (table_server 2 sample_rows) 6
           sample_auth "custdataset_revenue" 3 (connect tt))
    = Some (Returned l) /\
    (List.length l < List.length sample_rows)%nat.
Proof.
  apply (dataset_loses_rows_under_cap sample_env sample_auth "custdataset_revenue" 3 2
           sample_rows 6); simpl; lia.
Defined.

(** With limit 2 the three dataset requests differ. *)
Lemma fixed_step_requests_differ_witness :
  NoDup (map fst (log (snd (fetch_all_dataset_records sample_env sample_server 10
                              sample_auth "custdataset_revenue" 2
                              (connect dataset_pages))))).
Proof.
  apply (proj1 (fixed_step_requests_differ sample_env sample_server 10 sample_auth
                  dataset_pages) "custdataset_revenue" 2).
  discriminate.
Defined.
